(** * Shape import of the Mitsuba-Blender add-on

    A shallow embedding of [mitsuba-blender/io/importer/shapes.py]: the
    shading helper [_set_bl_mesh_shading], the seven shape converters and
    the dispatcher [mi_shape_to_bl_shape], followed by the properties of
    the import that the specification states.

    Python objects that the module mutates in place (the Blender mesh) are
    passed and returned explicitly.  Calls with an effect outside the module
    (the log of the import context, path resolution, file loads, the mesh
    registry of Blender) append an event to a trace; a reading of the wall
    clock and the name that Blender gives to a mesh depend on the events so
    far.  Exceptions are results of the [Py] monad. *)

From Stdlib Require Import PrimFloat.
From stdpp Require Import gmap strings list.

(** ** Exceptions, events and the [Py] monad *)

Inductive exn : Type :=
  | AssertionError
  | TypeError
  | IndexError
  | KeyError
  | ValueError.

Inductive level : Type := INFO | WARN | ERROR.

Inductive outcome (A : Type) : Type :=
  | Return (a : A)
  | Raise (e : exn).
Arguments Return {A} a.
Arguments Raise {A} e.

(** The double quote character, used inside the log messages. *)
Definition dquote : string := String (Ascii.ascii_of_nat 34) EmptyString.

(** *** Python values held by a property bag

    [VObj] is an object of the renderer (a transform, a point) that the
    module never inspects; it is identified by an opaque handle. *)

#[warnings="-register-all"]
Inductive value : Type :=
  | VNone
  | VBool (b : bool)
  | VInt (z : Z)
  | VFloat (f : float)
  | VStr (s : string)
  | VList (l : list value)
  | VObj (handle : string).

(** *** The data model: shape records and meshes *)

(** [mi_shape]: a plugin name, an identifier and a property bag. *)
Record ShapeRecord : Type := {
  plugin_name : string;
  id : string;
  props : gmap string value
}.

Definition has_property (mi_shape : ShapeRecord) (key : string) : bool :=
  bool_decide (is_Some (props mi_shape !! key)).

(** [mi_shape.get(key, default)] *)
Definition get (mi_shape : ShapeRecord) (key : string) (dflt : value) : value :=
  default dflt (props mi_shape !! key).

(** Records that differ from [mi_shape] in one property. *)
Definition set_property (mi_shape : ShapeRecord) (key : string) (v : value)
  : ShapeRecord :=
  {| plugin_name := plugin_name mi_shape; id := id mi_shape;
     props := <[key := v]> (props mi_shape) |}.

Definition del_property (mi_shape : ShapeRecord) (key : string) : ShapeRecord :=
  {| plugin_name := plugin_name mi_shape; id := id mi_shape;
     props := delete key (props mi_shape) |}.

Definition point : Type := float * float * float.

(** A polygon of a Blender mesh: its loop of vertex indices and its
    [use_smooth] flag. *)
Record MeshPolygon : Type := {
  vertices : list nat;
  use_smooth : bool
}.

Record Mesh : Type := {
  name : string;
  mesh_vertices : list point;
  polygons : list MeshPolygon;
  uv_layer : bool
}.

(** A [bmesh] under construction. *)
Record BMesh : Type := {
  bm_verts : list point;
  bm_faces : list (list nat);
  bm_uvs : bool
}.

(** What [traverse] exposes of a loaded Mitsuba mesh. *)
Record MiParams : Type := {
  vertex_count : nat;
  face_count : nat;
  vertex_positions : list float;
  faces : list nat
}.

(** *** Events and the world

    [NewMesh n] and [RenameMesh n] record the name that was asked for; the
    name that Blender gives is [assigned_name] below. *)

Inductive event : Type :=
  | Log (msg : string) (lvl : level)
  | ResolvePath (filename : value)
  | LoadPly (path : string) (mesh_id : string)
  | LoadObj (path : string)
  | MiLoadDict (type : string) (path : string) (shape_index : value)
  | NewMesh (mesh_name : string)
  | RenameMesh (mesh_name : string).

(** [trace] is chronological; [clock] counts the readings of [time.time()]
    taken so far. *)
Record world : Type := {
  trace : list event;
  clock : nat
}.

Definition Py (A : Type) : Type := world → outcome A * world.

Definition run {A} (m : Py A) (w : world) : outcome A * world := m w.

#[global] Instance Py_ret : MRet Py := λ A a w, (Return a, w).

#[global] Instance Py_bind : MBind Py := λ A B f m w,
  match m w with
  | (Return a, w') => f a w'
  | (Raise e, w') => (Raise e, w')
  end.

Definition raise {A} (e : exn) : Py A := λ w, (Raise e, w).

Definition emit (e : event) : Py unit :=
  λ w, (Return tt, {| trace := trace w ++ [e]; clock := clock w |}).

(** [assert cond] *)
Definition py_assert (cond : bool) : Py unit :=
  if cond then mret tt else raise AssertionError.

(** [mi_shape[key]] *)
Definition getitem (mi_shape : ShapeRecord) (key : string) : Py value :=
  match props mi_shape !! key with
  | Some v => mret v
  | None => raise KeyError
  end.

(** *** Collaborators

    The modules that [shapes.py] imports and the import context it is
    handed are not part of the file; they are taken as parameters.  A
    collaborator is taken on the arguments it accepts: the exceptions it
    raises on others (a centre that is no vector, a file that the renderer
    cannot open) are outside the model. *)

(** [mi_context].  Its [log] method is [log] below.  The method
    [mi_space_to_bl_space] is called on a matrix and, by the sphere
    converter, on a vector; the two uses are two fields. *)
Record MiContext (Matrix Vector : Type) : Type := {
  resolve_scene_relative_path : value → string;
  mi_space_to_bl_space : Matrix → Matrix;
  mi_space_to_bl_space_vec : Vector → Vector
}.

Record Env (Matrix Vector : Type) : Type := {
  (* Python: [str()] of a value that is not a string, [bool()] of a foreign
     object, the [.2f] format of a float *)
  str_other : value → string;
  obj_truthy : string → bool;
  format_2f : float → string;
  (* [time.time()]: the n-th reading of the clock, taken after the events
     of the trace *)
  time_at : list event → nat → float;
  (* Blender's naming of a mesh: the name a mesh gets when [n] is asked for
     after the events of the trace (names are kept unique and are cut at 63
     bytes) *)
  assigned_name : list event → string → string;
  (* [bl_transform_utils] (see [mi_transform_to_bl_transform] below),
     [mathutils] *)
  matrix_of_transform : value → Matrix;
  Matrix_identity : Matrix;
  Matrix_Translation : Vector → Matrix;
  Vector_new : value → Vector;
  (* [bl_import_ply] ([None] when the file does not load; a mesh object is
     true), [bl_import_obj] *)
  load_ply_mesh : string → string → option Mesh;
  bl_import_obj_load : string → list Mesh;
  (* [mitsuba.load_dict] followed by [traverse] *)
  mi_load_dict : string → string → value → MiParams;
  (* [bmesh.ops]; [create_cube] and [create_uvsphere] are modelled below,
     the latter for a [diameter] that is a float *)
  create_uvsphere_other : BMesh → nat → nat → value → bool → BMesh;
  create_circle : BMesh → bool → bool → nat → float → bool → BMesh;
  create_grid : BMesh → nat → nat → float → bool → BMesh
}.

Arguments resolve_scene_relative_path {Matrix Vector} _ _.
Arguments mi_space_to_bl_space {Matrix Vector} _ _.
Arguments mi_space_to_bl_space_vec {Matrix Vector} _ _.
Arguments str_other {Matrix Vector} _ _.
Arguments obj_truthy {Matrix Vector} _ _.
Arguments format_2f {Matrix Vector} _ _.
Arguments time_at {Matrix Vector} _ _ _.
Arguments assigned_name {Matrix Vector} _ _ _.
Arguments matrix_of_transform {Matrix Vector} _ _.
Arguments Matrix_identity {Matrix Vector} _.
Arguments Matrix_Translation {Matrix Vector} _ _.
Arguments Vector_new {Matrix Vector} _ _.
Arguments load_ply_mesh {Matrix Vector} _ _ _.
Arguments bl_import_obj_load {Matrix Vector} _ _.
Arguments mi_load_dict {Matrix Vector} _ _ _ _.
Arguments create_uvsphere_other {Matrix Vector} _ _ _ _ _ _.
Arguments create_circle {Matrix Vector} _ _ _ _ _ _ _.
Arguments create_grid {Matrix Vector} _ _ _ _ _.

Section Importer.

(** The matrices and vectors of [mathutils] are only passed around. *)
Context {Matrix Vector : Type}.
Variable env : Env Matrix Vector.

(** Truth value of a Python value, as tested by [if]. *)
Definition truthy (v : value) : bool :=
  match v with
  | VNone => false
  | VBool b => b
  | VInt z => negb (z =? 0)%Z
  | VFloat f => negb (PrimFloat.eqb f 0%float)
  | VStr s => negb (bool_decide (s = EmptyString))
  | VList l => negb (bool_decide (l = []))
  | VObj o => obj_truthy env o
  end.

(** [str(v)], as an f-string formats it. *)
Definition py_str (v : value) : string :=
  match v with
  | VStr s => s
  | _ => str_other env v
  end.

(** [mi_context.log(message, level)] *)
Definition log (msg : string) (lvl : level) : Py unit := emit (Log msg lvl).

(** [time.time()] *)
Definition time_time : Py float :=
  λ w, (Return (time_at env (trace w) (clock w)),
        {| trace := trace w; clock := S (clock w) |}).

(** Modelled from the spec: [bl_transform_utils.mi_transform_to_bl_transform]
    is missing from the sources.  Without a transform ([None]) it returns
    the identity; a transform is turned into a Blender matrix. *)
Definition mi_transform_to_bl_transform (mi_transform : value) : Matrix :=
  match mi_transform with
  | VNone => Matrix_identity env
  | _ => matrix_of_transform env mi_transform
  end.

Definition resolve_path (mi_context : MiContext Matrix Vector) (filename : value) : Py string :=
  emit (ResolvePath filename);;
  mret (resolve_scene_relative_path mi_context filename).

Definition bl_import_ply_load_ply_mesh (path mesh_id : string) : Py (option Mesh) :=
  emit (LoadPly path mesh_id);;
  mret (load_ply_mesh env path mesh_id).

Definition bl_import_obj_load_file (path : string) : Py (list Mesh) :=
  emit (LoadObj path);;
  mret (bl_import_obj_load env path).

Definition mi_load_dict_traverse (type path : string) (shape_index : value)
  : Py MiParams :=
  emit (MiLoadDict type path shape_index);;
  mret (mi_load_dict env type path shape_index).

(** *** The Blender mesh API used by the module *)

(** [bpy.data.meshes.new(name)]: an empty mesh, registered with Blender
    under the name that Blender assigns when [name] is asked for. *)
Definition new_mesh (n : string) : Mesh :=
  {| name := n; mesh_vertices := []; polygons := []; uv_layer := false |}.

Definition bpy_data_meshes_new (mesh_name : string) : Py Mesh :=
  λ w, (Return (new_mesh (assigned_name env (trace w) mesh_name)),
        {| trace := trace w ++ [NewMesh mesh_name]; clock := clock w |}).

Definition set_name (m : Mesh) (n : string) : Mesh :=
  {| name := n; mesh_vertices := mesh_vertices m; polygons := polygons m;
     uv_layer := uv_layer m |}.

(** [mesh.name = name]: Blender assigns a name of its own choice here too. *)
Definition mesh_rename (m : Mesh) (mesh_name : string) : Py Mesh :=
  λ w, (Return (set_name m (assigned_name env (trace w) mesh_name)),
        {| trace := trace w ++ [RenameMesh mesh_name]; clock := clock w |}).

Definition set_polygons (m : Mesh) (ps : list MeshPolygon) : Mesh :=
  {| name := name m; mesh_vertices := mesh_vertices m; polygons := ps;
     uv_layer := uv_layer m |}.

(** [polygons.foreach_set('use_smooth', flags)]: the i-th flag goes to the
    i-th polygon.  The module always passes as many flags as polygons. *)
Definition foreach_set_use_smooth (ps : list MeshPolygon) (flags : list bool)
  : list MeshPolygon :=
  zip_with (λ p b, {| vertices := vertices p; use_smooth := b |}) ps flags.

(** [calc_normals] and [update] recompute derived data (normals, edges,
    the triangulation cache), none of which the record carries. *)
Definition calc_normals (m : Mesh) : Mesh := m.
Definition update (m : Mesh) : Mesh := m.

(** Modelled from the spec: [Mesh.flip_normals] belongs to Blender and is
    missing from the sources; it inverts the winding of every face.  As in
    Blender the loop keeps its first vertex. *)
Definition flip_loop (loop : list nat) : list nat :=
  match loop with
  | [] => []
  | v :: vs => v :: rev vs
  end.

Definition flip_polygon (p : MeshPolygon) : MeshPolygon :=
  {| vertices := flip_loop (vertices p); use_smooth := use_smooth p |}.

Definition flip_normals (m : Mesh) : Mesh :=
  set_polygons m (flip_polygon <$> polygons m).

(** ** Utilities *)

Definition _set_bl_mesh_shading (bl_mesh : Mesh) (flat_shading flip : value)
  : Mesh :=
  let bl_mesh :=
    if truthy flat_shading then
      set_polygons bl_mesh
        (foreach_set_use_smooth (polygons bl_mesh)
           (replicate (length (polygons bl_mesh)) false))
    else
      let bl_mesh := calc_normals bl_mesh in
      set_polygons bl_mesh
        (foreach_set_use_smooth (polygons bl_mesh)
           (replicate (length (polygons bl_mesh)) true)) in
  let bl_mesh := if truthy flip then flip_normals bl_mesh else bl_mesh in
  update bl_mesh.

(** *** [bmesh] and mesh construction *)

Definition bmesh_new : BMesh := {| bm_verts := []; bm_faces := []; bm_uvs := false |}.

(** [bm.to_mesh(mesh)]: the geometry of [bm] is written into [mesh].  The
    [bm.free()] that follows releases the [bmesh] and leaves the mesh as it
    is. *)
Definition to_mesh (bm : BMesh) (m : Mesh) : Mesh :=
  {| name := name m;
     mesh_vertices := bm_verts bm;
     polygons := (λ f, {| vertices := f; use_smooth := false |}) <$> bm_faces bm;
     uv_layer := bm_uvs bm |}.

(** Modelled from the spec: [bmesh.ops.create_cube] belongs to Blender and
    is missing from the sources.  It adds a cube of edge length [size]
    centred at the origin: 8 vertices at the corners and 6 quadrilateral
    faces. *)
Definition cube_corners (size : float) : list point :=
  let off := (size / 2)%float in
  x ← [(- off)%float; off];
  y ← [(- off)%float; off];
  z ← [(- off)%float; off];
  [(x, y, z)].

Definition cube_faces : list (list nat) :=
  [ [0; 1; 3; 2]; [2; 3; 7; 6]; [6; 7; 5; 4];
    [4; 5; 1; 0]; [2; 6; 4; 0]; [7; 3; 1; 5] ].

Definition create_cube (bm : BMesh) (size : float) (calc_uvs : bool) : BMesh :=
  let base := length (bm_verts bm) in
  {| bm_verts := bm_verts bm ++ cube_corners size;
     bm_faces := bm_faces bm ++ (map (λ i, base + i) <$> cube_faces);
     bm_uvs := bm_uvs bm || calc_uvs |}.

(** Modelled from the spec: [bmesh.ops.create_uvsphere] belongs to Blender
    and is missing from the sources.  It adds a sphere around the origin,
    tessellated with [u] longitude and [v] latitude segments: the two poles
    and [v - 1] rings of [u] vertices, joined by a fan of triangles at each
    pole and by quadrilaterals in between.  The tessellation of the unit
    sphere is scaled by the argument [diameter], which acts as a radius.
    Sines and cosines are summed from their power series. *)
Definition pi : float := 0x1.921fb54442d18p+1%float.

Fixpoint alternating_series (terms : nat) (x2 term k : float) : float :=
  match terms with
  | 0 => 0%float
  | S terms' =>
      (term + alternating_series terms' x2
                (- (term * x2 / ((k + 1) * (k + 2)))) (k + 2))%float
  end.

Definition cos_series (x : float) : float := alternating_series 40 (x * x) 1 0.

Definition sin_series (x : float) : float := alternating_series 40 (x * x) x 1.

Definition float_of_nat (n : nat) : float :=
  Nat.iter n (λ x, (x + 1)%float) 0%float.

Definition uvsphere_unit_vertices (u v : nat) : list point :=
  [(0, 0, 1)%float] ++
  (j ← seq 1 (v - 1);
   i ← seq 0 u;
   let phi := (pi * float_of_nat j / float_of_nat v)%float in
   let theta := (2 * pi * float_of_nat i / float_of_nat u)%float in
   [((sin_series phi * cos_series theta), (sin_series phi * sin_series theta),
     cos_series phi)%float]) ++
  [(0, 0, -1)%float].

Definition uvsphere_faces (u v : nat) : list (list nat) :=
  let ring j i := 1 + (j - 1) * u + i `mod` u in
  let south := 1 + (v - 1) * u in
  (i ← seq 0 u; [[0; ring 1 i; ring 1 (S i)]]) ++
  (j ← seq 1 (v - 2); i ← seq 0 u;
   [[ring j i; ring (S j) i; ring (S j) (S i); ring j (S i)]]) ++
  (i ← seq 0 u; [[south; ring (v - 1) (S i); ring (v - 1) i]]).

Definition scale_point (r : float) (p : point) : point :=
  let '(x, y, z) := p in ((r * x), (r * y), (r * z))%float.

Definition uvsphere (bm : BMesh) (u v : nat) (radius : float) (calc_uvs : bool)
  : BMesh :=
  let base := length (bm_verts bm) in
  {| bm_verts := bm_verts bm ++ (scale_point radius <$> uvsphere_unit_vertices u v);
     bm_faces := bm_faces bm ++ (map (λ i, base + i) <$> uvsphere_faces u v);
     bm_uvs := bm_uvs bm || calc_uvs |}.

Definition create_uvsphere (bm : BMesh) (u_segments v_segments : nat)
    (diameter : value) (calc_uvs : bool) : BMesh :=
  match diameter with
  | VFloat radius => uvsphere bm u_segments v_segments radius calc_uvs
  | _ => create_uvsphere_other env bm u_segments v_segments diameter calc_uvs
  end.

(** [arr.reshape((n, 3))] of a flat array. *)
Fixpoint rows3 {A} (l : list A) : list (A * A * A) :=
  match l with
  | a :: b :: c :: l' => (a, b, c) :: rows3 l'
  | _ => []
  end.

Definition reshape3 {A} (arr : list A) (n : nat) : Py (list (A * A * A)) :=
  if bool_decide (length arr = n * 3) then mret (rows3 arr) else raise ValueError.

(** [for i in range(n): out.append(tuple(arr[i]))] *)
Fixpoint rows_pydata {A} (arr : list A) (indices : list nat) (out : list A)
  : Py (list A) :=
  match indices with
  | [] => mret out
  | i :: indices' =>
      match arr !! i with
      | Some row => rows_pydata arr indices' (out ++ [row])
      | None => raise IndexError
      end
  end.

(** [mesh.from_pydata(vertices, [], faces)] on a new mesh. *)
Definition from_pydata (m : Mesh) (verts : list point) (tris : list (nat * nat * nat))
  : Mesh :=
  {| name := name m;
     mesh_vertices := mesh_vertices m ++ verts;
     polygons := polygons m ++
       ((λ '(a, b, c), {| vertices := [a; b; c]; use_smooth := false |}) <$> tris);
     uv_layer := uv_layer m |}.

(** ** Converters *)

(** A converter returns [None] or the pair of a mesh and its world matrix. *)
Local Abbreviation conversion := (option (Mesh * Matrix)).

Definition mi_ply_to_bl_shape (mi_context : MiContext Matrix Vector)
    (mi_shape : ShapeRecord) : Py conversion :=
  py_assert (has_property mi_shape "filename");;
  filename ← getitem mi_shape "filename";
  abs_path ← resolve_path mi_context filename;
  (* Load .PLY mesh from file *)
  bl_mesh ← bl_import_ply_load_ply_mesh abs_path (id mi_shape);
  match bl_mesh with
  | None =>
      log ("Cannot load PLY mesh file " +:+ dquote +:+ py_str filename
             +:+ dquote +:+ ".") ERROR;;
      mret None
  | Some bl_mesh =>
      (* Set face normals if requested *)
      let bl_mesh :=
        _set_bl_mesh_shading bl_mesh (get mi_shape "face_normals" (VBool false))
          (VBool false) in
      let world_matrix :=
        mi_transform_to_bl_transform (get mi_shape "to_world" VNone) in
      mret (Some (bl_mesh, mi_space_to_bl_space mi_context world_matrix))
  end.

Definition mi_obj_to_bl_shape (mi_context : MiContext Matrix Vector)
    (mi_shape : ShapeRecord) : Py conversion :=
  start_time ← time_time;
  py_assert (has_property mi_shape "filename");;
  let filename := get mi_shape "filename" VNone in
  abs_path ← resolve_path mi_context filename;
  (* Load the mesh from the file *)
  bl_meshes ← bl_import_obj_load_file abs_path;
  (if 1 <? length bl_meshes then
     log "OBJ file containing more than one mesh. Only the first one will be loaded."
       WARN
   else mret tt);;
  bl_mesh ← match bl_meshes !! 0 with
            | Some m => mret m
            | None => raise IndexError
            end;
  bl_mesh ← mesh_rename bl_mesh (id mi_shape);
  (* Set face normals if requested *)
  let bl_mesh :=
    _set_bl_mesh_shading bl_mesh (get mi_shape "face_normals" (VBool false))
      (VBool false) in
  let world_matrix :=
    mi_transform_to_bl_transform (get mi_shape "to_world" VNone) in
  end_time ← time_time;
  log ("Loaded OBJ mesh " +:+ dquote +:+ id mi_shape +:+ dquote +:+ ". Took "
         +:+ format_2f env (end_time - start_time)%float +:+ "s.") INFO;;
  mret (Some (bl_mesh, mi_space_to_bl_space mi_context world_matrix)).

Definition mi_sphere_to_bl_shape (mi_context : MiContext Matrix Vector)
    (mi_shape : ShapeRecord) : Py conversion :=
  bl_mesh ← bpy_data_meshes_new (id mi_shape);
  let bl_bmesh := bmesh_new in
  let '(world_matrix, radius) :=
    if has_property mi_shape "to_world" then
      (mi_space_to_bl_space mi_context
         (mi_transform_to_bl_transform (get mi_shape "to_world" VNone)),
       VFloat 1%float)
    else
      (* only the position vector is transformed to Blender space *)
      (Matrix_Translation env
         (mi_space_to_bl_space_vec mi_context
            (Vector_new env
               (get mi_shape "center"
                  (VList [VFloat 0%float; VFloat 0%float; VFloat 0%float])))),
       get mi_shape "radius" (VFloat 1%float)) in
  (* Create a UV sphere mesh; [diameter] acts as a radius *)
  let bl_bmesh := create_uvsphere bl_bmesh 32 16 radius true in
  let bl_mesh := to_mesh bl_bmesh bl_mesh in
  let bl_mesh :=
    _set_bl_mesh_shading bl_mesh (VBool false)
      (get mi_shape "flip_normals" (VBool false)) in
  mret (Some (bl_mesh, world_matrix)).

Definition mi_disk_to_bl_shape (mi_context : MiContext Matrix Vector)
    (mi_shape : ShapeRecord) : Py conversion :=
  bl_mesh ← bpy_data_meshes_new (id mi_shape);
  let bl_bmesh := bmesh_new in
  (* Create a disk *)
  let bl_bmesh := create_circle env bl_bmesh true true 32 1%float true in
  let bl_mesh := to_mesh bl_bmesh bl_mesh in
  let bl_mesh :=
    _set_bl_mesh_shading bl_mesh (VBool true)
      (get mi_shape "flip_normals" (VBool false)) in
  let world_matrix :=
    mi_transform_to_bl_transform (get mi_shape "to_world" VNone) in
  mret (Some (bl_mesh, mi_space_to_bl_space mi_context world_matrix)).

Definition mi_rectangle_to_bl_shape (mi_context : MiContext Matrix Vector)
    (mi_shape : ShapeRecord) : Py conversion :=
  bl_mesh ← bpy_data_meshes_new (id mi_shape);
  let bl_bmesh := bmesh_new in
  (* Create a rectangle *)
  let bl_bmesh := create_grid env bl_bmesh 1 1 1%float true in
  let bl_mesh := to_mesh bl_bmesh bl_mesh in
  let bl_mesh :=
    _set_bl_mesh_shading bl_mesh (VBool true)
      (get mi_shape "flip_normals" (VBool false)) in
  let world_matrix :=
    mi_transform_to_bl_transform (get mi_shape "to_world" VNone) in
  mret (Some (bl_mesh, mi_space_to_bl_space mi_context world_matrix)).

Definition mi_cube_to_bl_shape (mi_context : MiContext Matrix Vector)
    (mi_shape : ShapeRecord) : Py conversion :=
  bl_mesh ← bpy_data_meshes_new (id mi_shape);
  let bl_bmesh := bmesh_new in
  (* Create a cube *)
  let bl_bmesh := create_cube bl_bmesh 2%float true in
  let bl_mesh := to_mesh bl_bmesh bl_mesh in
  let bl_mesh :=
    _set_bl_mesh_shading bl_mesh (VBool true)
      (get mi_shape "flip_normals" (VBool false)) in
  let world_matrix :=
    mi_transform_to_bl_transform (get mi_shape "to_world" VNone) in
  mret (Some (bl_mesh, mi_space_to_bl_space mi_context world_matrix)).

(** The two [import] statements that open the function are taken to
    succeed without an effect on the trace. *)
Definition mi_serialized_to_bl_shape (mi_context : MiContext Matrix Vector)
    (mi_shape : ShapeRecord) : Py conversion :=
  start_time ← time_time;
  (* only safe way is to create a shape using mitsuba *)
  py_assert (has_property mi_shape "filename");;
  let filename := get mi_shape "filename" VNone in
  abs_path ← resolve_path mi_context filename;
  params ← mi_load_dict_traverse (plugin_name mi_shape) abs_path
             (get mi_shape "shape_index" VNone);
  let vert_count := vertex_count params in
  let face_count_ := face_count params in
  let verts := vertex_positions params in
  let tris := faces params in
  bl_mesh ← bpy_data_meshes_new (id mi_shape);
  verts ← reshape3 verts vert_count;
  tris ← reshape3 tris face_count_;
  verts_pydata ← rows_pydata verts (seq 0 vert_count) [];
  face_pydata ← rows_pydata tris (seq 0 face_count_) [];
  let bl_mesh := from_pydata bl_mesh verts_pydata face_pydata in
  let bl_mesh := calc_normals bl_mesh in
  end_time ← time_time;
  log ("Loaded serialized mesh " +:+ dquote +:+ id mi_shape +:+ dquote
         +:+ ". Took " +:+ format_2f env (end_time - start_time)%float +:+ "s.")
    INFO;;
  let world_matrix :=
    mi_transform_to_bl_transform (get mi_shape "to_world" VNone) in
  mret (Some (bl_mesh, world_matrix)).

(** ** Main import *)

Local Abbreviation converter :=
  (MiContext Matrix Vector → ShapeRecord → Py (option (Mesh * Matrix))).

Definition _shape_converters : gmap string converter :=
  list_to_map
    [ ("ply", mi_ply_to_bl_shape);
      ("obj", mi_obj_to_bl_shape);
      ("sphere", mi_sphere_to_bl_shape);
      ("disk", mi_disk_to_bl_shape);
      ("rectangle", mi_rectangle_to_bl_shape);
      ("cube", mi_cube_to_bl_shape);
      ("serialized", mi_serialized_to_bl_shape) ].

(** [a, b = r]: unpacking [None] raises [TypeError]. *)
Definition unpack_pair (r : conversion) : Py (Mesh * Matrix) :=
  match r with
  | Some p => mret p
  | None => raise TypeError
  end.

Definition mi_shape_to_bl_shape (mi_context : MiContext Matrix Vector)
    (mi_shape : ShapeRecord) : Py conversion :=
  let shape_type := plugin_name mi_shape in
  match _shape_converters !! shape_type with
  | None =>
      log ("Mitsuba Shape type " +:+ dquote +:+ shape_type +:+ dquote
             +:+ " not supported.") ERROR;;
      mret None
  | Some convert =>
      (* Create the Blender object *)
      '(bl_mesh, world_matrix) ← convert mi_context mi_shape ≫= unpack_pair;
      mret (Some (bl_mesh, world_matrix))
  end.

End Importer.

Arguments create_uvsphere : simpl never.
Arguments uvsphere : simpl never.

(** ** A term model of the collaborators

    In the term model every call of a collaborator that returns a matrix or
    a vector is a constructor, so a result shows how it was computed.  The
    remaining collaborators are small test doubles.  The model is one
    implementation of the interfaces [MiContext] and [Env]; the properties
    below hold for every implementation and are exercised on this one. *)

Module Example.

Inductive SymVector : Type :=
  | SVector (v : value)
  | SToBlSpaceV (x : SymVector).

Inductive SymMatrix : Type :=
  | SIdentity
  | SOfTransform (v : value)
  | STranslation (x : SymVector)
  | SToBlSpace (m : SymMatrix).

Definition context : MiContext SymMatrix SymVector := {|
  resolve_scene_relative_path := λ v,
    "/scene/" +:+ match v with VStr s => s | _ => "?" end;
  mi_space_to_bl_space := SToBlSpace;
  mi_space_to_bl_space_vec := SToBlSpaceV
|}.

Definition triangle (n : string) : Mesh := {|
  name := n;
  mesh_vertices := [(0, 0, 0); (1, 0, 0); (0, 1, 0)]%float;
  polygons := [ {| vertices := [0; 1; 2]; use_smooth := false |} ];
  uv_layer := false
|}.

Definition quad (n : string) : Mesh := {|
  name := n;
  mesh_vertices := [(0, 0, 0); (1, 0, 0); (1, 1, 0); (0, 1, 0)]%float;
  polygons := [ {| vertices := [0; 1; 2; 3]; use_smooth := true |} ];
  uv_layer := false
|}.

(** A stand-in for what the sphere generator does with a [diameter] that
    is no float: an octahedron. *)
Definition octahedron (bm : BMesh) (r : float) (uvs : bool) : BMesh := {|
  bm_verts := bm_verts bm ++
    [(r, 0, 0); (- r, 0, 0); (0, r, 0); (0, - r, 0); (0, 0, r); (0, 0, - r)]%float;
  bm_faces := bm_faces bm ++
    [ [0; 2; 4]; [2; 1; 4]; [1; 3; 4]; [3; 0; 4];
      [2; 0; 5]; [1; 2; 5]; [3; 1; 5]; [0; 3; 5] ];
  bm_uvs := uvs
|}.

Definition square (bm : BMesh) (r : float) (uvs : bool) : BMesh := {|
  bm_verts := bm_verts bm ++ [(- r, - r, 0); (r, - r, 0); (r, r, 0); (- r, r, 0)]%float;
  bm_faces := bm_faces bm ++ [ [0; 1; 2; 3] ];
  bm_uvs := uvs
|}.

(** The names asked for so far, and a stand-in for Blender's naming: a
    name that was asked for before gets the suffix [.001]. *)
Definition requested (e : event) : option string :=
  match e with
  | NewMesh n | RenameMesh n | LoadPly _ n => Some n
  | _ => None
  end.

Definition unique_name (tr : list event) (n : string) : string :=
  if bool_decide (Some n ∈ requested <$> tr) then n +:+ ".001" else n.

Definition env : Env SymMatrix SymVector := {|
  str_other := λ _, "<object>";
  obj_truthy := λ _, true;
  format_2f := λ d,
    if PrimFloat.eqb d 0.75%float then "0.75"
    else if PrimFloat.eqb d 1%float then "1.00"
    else "0.00";
  (* every event takes a quarter of a second *)
  time_at := λ tr _, Nat.iter (length tr) (λ t, (t + 0.25)%float) 10%float;
  assigned_name := unique_name;
  matrix_of_transform := SOfTransform;
  Matrix_identity := SIdentity;
  Matrix_Translation := STranslation;
  Vector_new := SVector;
  load_ply_mesh := λ path mesh_id,
    if bool_decide (path = "/scene/tri.ply") then Some (triangle mesh_id) else None;
  bl_import_obj_load := λ path,
    if bool_decide (path = "/scene/two.obj") then [quad "first"; triangle "second"]
    else if bool_decide (path = "/scene/one.obj") then [quad "only"]
    else [];
  mi_load_dict := λ _ _ _,
    {| vertex_count := 3; face_count := 1;
       vertex_positions := [0; 0; 0; 1; 0; 0; 0; 1; 0]%float;
       faces := [0; 1; 2] |};
  create_uvsphere_other := λ bm _ _ _ uvs, octahedron bm 1%float uvs;
  create_circle := λ bm _ _ _ r uvs, square bm r uvs;
  create_grid := λ bm _ _ sz uvs, square bm sz uvs
|}.

Definition shape (kind : string) (ps : list (string * value)) : ShapeRecord :=
  {| plugin_name := kind; id := kind +:+ "_0"; props := list_to_map ps |}.

Definition w0 : world := {| trace := []; clock := 0 |}.

End Example.

(** The term model with a renderer whose arrays do not match the counts it
    reports: 3 vertices are announced and 7 coordinates delivered. *)
Module Malformed.

Definition env : Env Example.SymMatrix Example.SymVector := {|
  str_other := str_other Example.env;
  obj_truthy := obj_truthy Example.env;
  format_2f := format_2f Example.env;
  time_at := time_at Example.env;
  assigned_name := assigned_name Example.env;
  matrix_of_transform := matrix_of_transform Example.env;
  Matrix_identity := Matrix_identity Example.env;
  Matrix_Translation := Matrix_Translation Example.env;
  Vector_new := Vector_new Example.env;
  load_ply_mesh := load_ply_mesh Example.env;
  bl_import_obj_load := bl_import_obj_load Example.env;
  mi_load_dict := λ _ _ _,
    {| vertex_count := 3; face_count := 1;
       vertex_positions := [0; 0; 0; 1; 0; 0; 0]%float;
       faces := [0; 1; 2] |};
  create_uvsphere_other := create_uvsphere_other Example.env;
  create_circle := create_circle Example.env;
  create_grid := create_grid Example.env
|}.

End Malformed.

Section Properties.

Context {Matrix Vector : Type}.
Variable env : Env Matrix Vector.
Variable mi_context : MiContext Matrix Vector.

(** *** Vocabulary *)

Definition supported_kinds : list string :=
  ["ply"; "obj"; "sphere"; "disk"; "rectangle"; "cube"; "serialized"].

(** The shading-mode step of [_set_bl_mesh_shading], taken alone: every
    face is marked flat or smooth. *)
Definition shade (m : Mesh) (flat : bool) : Mesh :=
  set_polygons m
    ((λ p, {| vertices := vertices p; use_smooth := negb flat |}) <$> polygons m).

(** The loops of the faces of a mesh, in order. *)
Definition winding (m : Mesh) : list (list nat) := vertices <$> polygons m.

(** The number of triangles of a mesh once every face is split into a fan. *)
Definition triangle_count (m : Mesh) : nat :=
  sum_list ((λ p, length (vertices p) - 2) <$> polygons m).

(** The edges of a face, and the squared length of an edge of a mesh. *)
Definition loop_edges (loop : list nat) : list (nat * nat) :=
  zip loop (rotate 1 loop).

Definition dist2 (p q : point) : float :=
  let '(x1, y1, z1) := p in
  let '(x2, y2, z2) := q in
  ((x1 - x2) * (x1 - x2) + (y1 - y2) * (y1 - y2) + (z1 - z2) * (z1 - z2))%float.

Definition edge_length2 (m : Mesh) (e : nat * nat) : option float :=
  p ← mesh_vertices m !! e.1;
  q ← mesh_vertices m !! e.2;
  Some (dist2 p q).

(** [p] lies at the distance [r] from the origin, up to [2^-30] in the
    square of the distance. *)
Definition origin : point := (0, 0, 0)%float.

Definition at_radius (r : float) (p : point) : Prop :=
  PrimFloat.ltb (abs (dist2 p origin - r * r)) 0x1p-30%float = true.

(** The mesh of the sphere converter when the generator is given [radius]
    and the conversion starts in [w]. *)
Definition sphere_mesh (s : ShapeRecord) (radius : value) (w : world) : Mesh :=
  _set_bl_mesh_shading env
    (to_mesh (create_uvsphere env bmesh_new 32 16 radius true)
       (new_mesh (assigned_name env (trace w) (id s))))
    (VBool false) (get s "flip_normals" (VBool false)).

(** The trace of the OBJ converter when it renames the mesh, started on
    [tr]. *)
Definition obj_trace_at_rename (filename : value) (tr : list event) : list event :=
  let path := resolve_scene_relative_path mi_context filename in
  tr ++ [ResolvePath filename; LoadObj path] ++
  (if 1 <? length (bl_import_obj_load env path) then
     [Log "OBJ file containing more than one mesh. Only the first one will be loaded."
        WARN]
   else []).

(** The mesh that the loader of a file-backed kind hands to the shading
    helper when the conversion starts in [w]: the PLY loader names it
    itself, the OBJ converter takes entry zero and renames it. *)
Definition file_mesh (s : ShapeRecord) (filename : value) (w : world) : option Mesh :=
  let path := resolve_scene_relative_path mi_context filename in
  if bool_decide (plugin_name s = "ply") then load_ply_mesh env path (id s)
  else if bool_decide (plugin_name s = "obj") then
    (λ m, set_name m
            (assigned_name env (obj_trace_at_rename filename (trace w)) (id s)))
      <$> bl_import_obj_load env path !! 0
  else None.

(** The properties that a conversion of [s] may read; for a sphere they
    depend on the placement mode. *)
Definition properties_read (s : ShapeRecord) : list string :=
  let kind := plugin_name s in
  if String.eqb kind "ply" || String.eqb kind "obj" then
    ["filename"; "face_normals"; "to_world"]
  else if String.eqb kind "sphere" then
    if has_property s "to_world" then ["to_world"; "flip_normals"]
    else ["to_world"; "center"; "radius"; "flip_normals"]
  else if String.eqb kind "disk" || String.eqb kind "rectangle"
          || String.eqb kind "cube" then
    ["flip_normals"; "to_world"]
  else if String.eqb kind "serialized" then ["filename"; "shape_index"; "to_world"]
  else [].

(** The kinds generated by [bmesh]. *)
Definition primitive_kinds : list string := ["sphere"; "disk"; "rectangle"; "cube"].

(** Rows of three, flattened again. *)
Definition flat3 {A} (rows : list (A * A * A)) : list A :=
  '(a, b, c) ← rows; [a; b; c].

(** *** The property bag and the monad *)

(** Unfolds the monad and the effectful primitives, so that a run on a
    symbolic world computes. *)
Ltac py_unfold :=
  unfold run, resolve_path, bl_import_ply_load_ply_mesh, bl_import_obj_load_file,
    mi_load_dict_traverse, bpy_data_meshes_new, mesh_rename, time_time, log, emit,
    py_assert,
    getitem, unpack_pair, raise, mbind, mret, Py_bind, Py_ret.

Ltac py_cbn := cbn -[String.append _set_bl_mesh_shading get].

Lemma has_property_Some (s : ShapeRecord) k v :
  props s !! k = Some v → has_property s k = true.
Proof. intros H. unfold has_property. rewrite H. reflexivity. Qed.

Lemma has_property_None (s : ShapeRecord) k :
  props s !! k = None → has_property s k = false.
Proof. intros H. unfold has_property. rewrite H. reflexivity. Qed.

Lemma has_property_false (s : ShapeRecord) k :
  has_property s k = false → props s !! k = None.
Proof.
  unfold has_property. destruct (props s !! k) eqn:E; [|done].
  intros H. exfalso. revert H. cbn. discriminate.
Qed.

Lemma get_Some (s : ShapeRecord) k d v : props s !! k = Some v → get s k d = v.
Proof. intros H. unfold get. rewrite H. reflexivity. Qed.

Lemma get_None (s : ShapeRecord) k d : props s !! k = None → get s k d = d.
Proof. intros H. unfold get. rewrite H. reflexivity. Qed.

(** *** The dispatch table *)

Lemma lookup_unsupported k :
  k ∉ supported_kinds → _shape_converters env !! k = None.
Proof.
  intros Hk. unfold _shape_converters.
  apply not_elem_of_list_to_map_1. exact Hk.
Qed.

Lemma lookup_table :
  _shape_converters env !! "ply" = Some (mi_ply_to_bl_shape env) ∧
  _shape_converters env !! "obj" = Some (mi_obj_to_bl_shape env) ∧
  _shape_converters env !! "sphere" = Some (mi_sphere_to_bl_shape env) ∧
  _shape_converters env !! "disk" = Some (mi_disk_to_bl_shape env) ∧
  _shape_converters env !! "rectangle" = Some (mi_rectangle_to_bl_shape env) ∧
  _shape_converters env !! "cube" = Some (mi_cube_to_bl_shape env) ∧
  _shape_converters env !! "serialized" = Some (mi_serialized_to_bl_shape env).
Proof. repeat split; reflexivity. Qed.

(** What the dispatcher does with a kind of the table. *)
Lemma dispatch_supported (s : ShapeRecord) convert w :
  _shape_converters env !! plugin_name s = Some convert →
  run (mi_shape_to_bl_shape env mi_context s) w =
    match run (convert mi_context s) w with
    | (Return (Some p), w') => (Return (Some p), w')
    | (Return None, w') => (Raise TypeError, w')
    | (Raise e, w') => (Raise e, w')
    end.
Proof.
  intros H. unfold mi_shape_to_bl_shape. cbv zeta. rewrite H.
  py_unfold. destruct (convert mi_context s w) as [[[[m t]|]|e] w']; reflexivity.
Qed.

(** *** What each converter computes *)

Lemma run_mi_ply (s : ShapeRecord) (w : world) :
  run (mi_ply_to_bl_shape env mi_context s) w =
    match props s !! "filename" with
    | None => (Raise AssertionError, w)
    | Some filename =>
        let path := resolve_scene_relative_path mi_context filename in
        match load_ply_mesh env path (id s) with
        | None =>
            (Return None,
             {| trace := trace w ++
                  [ResolvePath filename; LoadPly path (id s);
                   Log ("Cannot load PLY mesh file " +:+ dquote
                          +:+ py_str env filename +:+ dquote +:+ ".") ERROR];
                clock := clock w |})
        | Some m =>
            (Return (Some
               (_set_bl_mesh_shading env m (get s "face_normals" (VBool false))
                  (VBool false),
                mi_space_to_bl_space mi_context
                  (mi_transform_to_bl_transform env (get s "to_world" VNone)))),
             {| trace := trace w ++ [ResolvePath filename; LoadPly path (id s)];
                clock := clock w |})
        end
    end.
Proof.
  unfold mi_ply_to_bl_shape, has_property. py_unfold.
  destruct (props s !! "filename") as [filename|] eqn:Hf; py_cbn.
  - destruct (load_ply_mesh env _ (id s)); py_cbn;
      rewrite <- !app_assoc; reflexivity.
  - reflexivity.
Qed.

Lemma run_mi_obj (s : ShapeRecord) (w : world) :
  run (mi_obj_to_bl_shape env mi_context s) w =
    let w1 := {| trace := trace w; clock := S (clock w) |} in
    match props s !! "filename" with
    | None => (Raise AssertionError, w1)
    | Some filename =>
        let path := resolve_scene_relative_path mi_context filename in
        let loaded := [ResolvePath filename; LoadObj path] in
        let at_rename := obj_trace_at_rename filename (trace w) in
        match bl_import_obj_load env path with
        | [] => (Raise IndexError, {| trace := trace w ++ loaded; clock := S (clock w) |})
        | m :: _ =>
            (Return (Some
               (_set_bl_mesh_shading env
                  (set_name m (assigned_name env at_rename (id s)))
                  (get s "face_normals" (VBool false)) (VBool false),
                mi_space_to_bl_space mi_context
                  (mi_transform_to_bl_transform env (get s "to_world" VNone)))),
             {| trace := at_rename ++
                  [RenameMesh (id s);
                   Log ("Loaded OBJ mesh " +:+ dquote +:+ id s +:+ dquote
                          +:+ ". Took "
                          +:+ format_2f env
                                (time_at env (at_rename ++ [RenameMesh (id s)])
                                   (S (clock w))
                                 - time_at env (trace w) (clock w))%float
                          +:+ "s.") INFO];
                clock := S (S (clock w)) |})
        end
    end.
Proof.
  unfold mi_obj_to_bl_shape, has_property, obj_trace_at_rename. py_unfold.
  destruct (props s !! "filename") as [filename|] eqn:Hf; py_cbn; [|reflexivity].
  rewrite (get_Some _ _ _ _ Hf).
  destruct (bl_import_obj_load env _) as [|m [|m' rest]]; py_cbn;
    rewrite <- ?app_assoc; reflexivity.
Qed.

Lemma rows_pydata_seq {A} (arr : list A) (n k : nat) (out : list A) (w : world) :
  k + n = length arr →
  run (rows_pydata arr (seq k n) out) w = (Return (out ++ drop k arr), w).
Proof.
  unfold run. revert k out. induction n as [|n IH]; intros k out Hlen; cbn.
  - rewrite drop_ge by lia. rewrite app_nil_r. reflexivity.
  - destruct (arr !! k) as [row|] eqn:Hrow.
    + rewrite (drop_S _ _ _ Hrow). rewrite IH by lia.
      rewrite <- app_assoc. reflexivity.
    + apply lookup_ge_None in Hrow. lia.
Qed.

Lemma length_rows3 {A} (n : nat) (l : list A) :
  length l = n * 3 → length (rows3 l) = n.
Proof.
  revert l. induction n as [|n IH]; intros l Hl.
  - destruct l; [reflexivity|discriminate].
  - destruct l as [|a [|b [|c l]]]; try discriminate.
    cbn. f_equal. apply IH. cbn in Hl. lia.
Qed.

Lemma run_mi_serialized (s : ShapeRecord) (w : world) :
  run (mi_serialized_to_bl_shape env mi_context s) w =
    match props s !! "filename" with
    | None => (Raise AssertionError, {| trace := trace w; clock := S (clock w) |})
    | Some filename =>
        let path := resolve_scene_relative_path mi_context filename in
        let shape_index := get s "shape_index" VNone in
        let params := mi_load_dict env (plugin_name s) path shape_index in
        let loaded := trace w ++
          [ResolvePath filename; MiLoadDict (plugin_name s) path shape_index] in
        let tr := trace w ++
          [ResolvePath filename; MiLoadDict (plugin_name s) path shape_index;
           NewMesh (id s)] in
        if bool_decide (length (vertex_positions params) = vertex_count params * 3)
             && bool_decide (length (faces params) = face_count params * 3)
        then
          (Return (Some
             (calc_normals
                (from_pydata (new_mesh (assigned_name env loaded (id s)))
                   (rows3 (vertex_positions params)) (rows3 (faces params))),
              mi_transform_to_bl_transform env (get s "to_world" VNone))),
           {| trace := tr ++
                [Log ("Loaded serialized mesh " +:+ dquote +:+ id s +:+ dquote
                        +:+ ". Took "
                        +:+ format_2f env
                              (time_at env tr (S (clock w))
                               - time_at env (trace w) (clock w))%float
                        +:+ "s.") INFO];
              clock := S (S (clock w)) |})
        else (Raise ValueError, {| trace := tr; clock := S (clock w) |})
    end.
Proof.
  unfold mi_serialized_to_bl_shape, has_property, reshape3. py_unfold.
  destruct (props s !! "filename") as [filename|] eqn:Hf; py_cbn; [|reflexivity].
  rewrite (get_Some _ _ _ _ Hf).
  set (params := mi_load_dict env _ _ _).
  case_bool_decide as Hv; py_cbn; [|rewrite <- !app_assoc; reflexivity].
  case_bool_decide as Hf'; py_cbn; [|rewrite <- !app_assoc; reflexivity].
  pose proof (rows_pydata_seq (rows3 (vertex_positions params))
                (vertex_count params) 0 []) as Hrv.
  pose proof (rows_pydata_seq (rows3 (faces params)) (face_count params) 0 [])
    as Hrf.
  unfold run in Hrv, Hrf.
  rewrite Hrv by (rewrite (length_rows3 _ _ Hv); lia).
  rewrite Hrf by (rewrite (length_rows3 _ _ Hf'); lia).
  py_cbn. rewrite <- !app_assoc. reflexivity.
Qed.

Lemma run_mi_sphere (s : ShapeRecord) (w : world) :
  run (mi_sphere_to_bl_shape env mi_context s) w =
    (Return (Some
       (sphere_mesh s
          (if has_property s "to_world" then VFloat 1%float
           else get s "radius" (VFloat 1%float)) w,
        if has_property s "to_world" then
          mi_space_to_bl_space mi_context
            (mi_transform_to_bl_transform env (get s "to_world" VNone))
        else
          Matrix_Translation env
            (mi_space_to_bl_space_vec mi_context
               (Vector_new env
                  (get s "center"
                     (VList [VFloat 0%float; VFloat 0%float; VFloat 0%float])))))),
     {| trace := trace w ++ [NewMesh (id s)]; clock := clock w |}).
Proof.
  unfold mi_sphere_to_bl_shape, sphere_mesh. py_unfold.
  destruct (has_property s "to_world"); reflexivity.
Qed.

Lemma run_mi_disk (s : ShapeRecord) (w : world) :
  run (mi_disk_to_bl_shape env mi_context s) w =
    (Return (Some
       (_set_bl_mesh_shading env
          (to_mesh (create_circle env bmesh_new true true 32 1%float true)
             (new_mesh (assigned_name env (trace w) (id s))))
          (VBool true) (get s "flip_normals" (VBool false)),
        mi_space_to_bl_space mi_context
          (mi_transform_to_bl_transform env (get s "to_world" VNone)))),
     {| trace := trace w ++ [NewMesh (id s)]; clock := clock w |}).
Proof. reflexivity. Qed.

Lemma run_mi_rectangle (s : ShapeRecord) (w : world) :
  run (mi_rectangle_to_bl_shape env mi_context s) w =
    (Return (Some
       (_set_bl_mesh_shading env
          (to_mesh (create_grid env bmesh_new 1 1 1%float true) (new_mesh (assigned_name env (trace w) (id s))))
          (VBool true) (get s "flip_normals" (VBool false)),
        mi_space_to_bl_space mi_context
          (mi_transform_to_bl_transform env (get s "to_world" VNone)))),
     {| trace := trace w ++ [NewMesh (id s)]; clock := clock w |}).
Proof. reflexivity. Qed.

Lemma run_mi_cube (s : ShapeRecord) (w : world) :
  run (mi_cube_to_bl_shape env mi_context s) w =
    (Return (Some
       (_set_bl_mesh_shading env
          (to_mesh (create_cube bmesh_new 2%float true) (new_mesh (assigned_name env (trace w) (id s))))
          (VBool true) (get s "flip_normals" (VBool false)),
        mi_space_to_bl_space mi_context
          (mi_transform_to_bl_transform env (get s "to_world" VNone)))),
     {| trace := trace w ++ [NewMesh (id s)]; clock := clock w |}).
Proof. reflexivity. Qed.

(** *** The dispatcher on each supported kind *)

(** The dispatcher on the two file-backed kinds. *)
Lemma run_dispatch_ply (s : ShapeRecord) (w : world) :
  plugin_name s = "ply" →
  run (mi_shape_to_bl_shape env mi_context s) w =
    match run (mi_ply_to_bl_shape env mi_context s) w with
    | (Return (Some p), w') => (Return (Some p), w')
    | (Return None, w') => (Raise TypeError, w')
    | (Raise e, w') => (Raise e, w')
    end.
Proof.
  intros Hk. apply dispatch_supported. rewrite Hk. apply lookup_table.
Qed.

Lemma run_dispatch_obj (s : ShapeRecord) (w : world) :
  plugin_name s = "obj" →
  run (mi_shape_to_bl_shape env mi_context s) w =
    match run (mi_obj_to_bl_shape env mi_context s) w with
    | (Return (Some p), w') => (Return (Some p), w')
    | (Return None, w') => (Raise TypeError, w')
    | (Raise e, w') => (Raise e, w')
    end.
Proof.
  intros Hk. apply dispatch_supported. rewrite Hk. apply lookup_table.
Qed.

Lemma run_dispatch_sphere (s : ShapeRecord) (w : world) :
  plugin_name s = "sphere" →
  run (mi_shape_to_bl_shape env mi_context s) w =
    match run (mi_sphere_to_bl_shape env mi_context s) w with
    | (Return (Some p), w') => (Return (Some p), w')
    | (Return None, w') => (Raise TypeError, w')
    | (Raise e, w') => (Raise e, w')
    end.
Proof.
  intros Hk. apply dispatch_supported. rewrite Hk. apply lookup_table.
Qed.

Lemma run_dispatch_disk (s : ShapeRecord) (w : world) :
  plugin_name s = "disk" →
  run (mi_shape_to_bl_shape env mi_context s) w =
    run (mi_disk_to_bl_shape env mi_context s) w.
Proof.
  intros Hk. rewrite (dispatch_supported s (mi_disk_to_bl_shape env)).
  - rewrite run_mi_disk. reflexivity.
  - rewrite Hk. apply lookup_table.
Qed.

Lemma run_dispatch_rectangle (s : ShapeRecord) (w : world) :
  plugin_name s = "rectangle" →
  run (mi_shape_to_bl_shape env mi_context s) w =
    run (mi_rectangle_to_bl_shape env mi_context s) w.
Proof.
  intros Hk. rewrite (dispatch_supported s (mi_rectangle_to_bl_shape env)).
  - rewrite run_mi_rectangle. reflexivity.
  - rewrite Hk. apply lookup_table.
Qed.

Lemma run_dispatch_cube (s : ShapeRecord) (w : world) :
  plugin_name s = "cube" →
  run (mi_shape_to_bl_shape env mi_context s) w =
    run (mi_cube_to_bl_shape env mi_context s) w.
Proof.
  intros Hk. rewrite (dispatch_supported s (mi_cube_to_bl_shape env)).
  - rewrite run_mi_cube. reflexivity.
  - rewrite Hk. apply lookup_table.
Qed.

Lemma run_dispatch_serialized (s : ShapeRecord) (w : world) :
  plugin_name s = "serialized" →
  run (mi_shape_to_bl_shape env mi_context s) w =
    match run (mi_serialized_to_bl_shape env mi_context s) w with
    | (Return (Some p), w') => (Return (Some p), w')
    | (Return None, w') => (Raise TypeError, w')
    | (Raise e, w') => (Raise e, w')
    end.
Proof.
  intros Hk. apply dispatch_supported. rewrite Hk. apply lookup_table.
Qed.

(** *** The shading helper *)

Lemma foreach_set_replicate (ps : list MeshPolygon) (b : bool) :
  foreach_set_use_smooth ps (replicate (length ps) b) =
    (λ p, {| vertices := vertices p; use_smooth := b |}) <$> ps.
Proof.
  unfold foreach_set_use_smooth.
  induction ps as [|p ps IH]; cbn; [reflexivity|]. rewrite IH. reflexivity.
Qed.

Lemma set_bl_mesh_shading_eq (m : Mesh) (flat_shading flip : value) :
  _set_bl_mesh_shading env m flat_shading flip =
    if truthy env flip then flip_normals (shade m (truthy env flat_shading))
    else shade m (truthy env flat_shading).
Proof.
  unfold _set_bl_mesh_shading, update, calc_normals, shade.
  destruct (truthy env flat_shading); rewrite foreach_set_replicate;
    destruct (truthy env flip); reflexivity.
Qed.

Lemma name_set_bl_mesh_shading (m : Mesh) (flat_shading flip : value) :
  name (_set_bl_mesh_shading env m flat_shading flip) = name m.
Proof.
  rewrite set_bl_mesh_shading_eq. destruct (truthy env flip); reflexivity.
Qed.

Lemma mesh_vertices_set_bl_mesh_shading (m : Mesh) (flat_shading flip : value) :
  mesh_vertices (_set_bl_mesh_shading env m flat_shading flip) = mesh_vertices m.
Proof.
  rewrite set_bl_mesh_shading_eq. destruct (truthy env flip); reflexivity.
Qed.

Lemma winding_shade (m : Mesh) (flat : bool) : winding (shade m flat) = winding m.
Proof.
  unfold winding, shade, set_polygons. cbn. rewrite <- list_fmap_compose.
  reflexivity.
Qed.

Lemma use_smooth_shade (m : Mesh) (flat : bool) :
  Forall (λ p, use_smooth p = negb flat) (polygons (shade m flat)).
Proof.
  unfold shade, set_polygons. cbn. apply Forall_fmap, Forall_true. reflexivity.
Qed.

Lemma flip_loop_involutive (loop : list nat) : flip_loop (flip_loop loop) = loop.
Proof.
  destruct loop as [|v vs]; cbn; [reflexivity|]. rewrite rev_involutive. reflexivity.
Qed.

Lemma flip_polygon_involutive (p : MeshPolygon) : flip_polygon (flip_polygon p) = p.
Proof.
  destruct p as [l b]. unfold flip_polygon. cbn. rewrite flip_loop_involutive.
  reflexivity.
Qed.

Lemma flip_normals_involutive (m : Mesh) : flip_normals (flip_normals m) = m.
Proof.
  destruct m as [n vs ps uv]. unfold flip_normals, set_polygons. cbn. f_equal.
  rewrite <- list_fmap_compose. rewrite <- (list_fmap_id ps) at 2.
  apply list_fmap_ext. intros _ p _. apply flip_polygon_involutive.
Qed.

Lemma flip_loop_reverses (loop : list nat) :
  flip_loop loop = rotate (length loop - 1) (rev loop).
Proof.
  destruct loop as [|v vs]; [reflexivity|].
  unfold rotate. cbn [flip_loop length rev]. rewrite length_app, length_rev.
  cbn [length]. replace (S (length vs) - 1) with (length vs) by lia.
  replace (length vs + 1) with (S (length vs)) by lia.
  rewrite Nat.mod_small by lia.
  rewrite <- (length_rev vs).
  rewrite drop_app_length, take_app_length. reflexivity.
Qed.

Lemma winding_flip_normals (m : Mesh) :
  winding (flip_normals m) = flip_loop <$> winding m.
Proof.
  unfold winding, flip_normals, set_polygons. cbn.
  rewrite <- !list_fmap_compose. reflexivity.
Qed.

Lemma shade_flip_normals (m : Mesh) (flat : bool) :
  shade (flip_normals m) flat = flip_normals (shade m flat).
Proof.
  unfold shade, flip_normals, set_polygons. cbn. f_equal.
  rewrite <- !list_fmap_compose. reflexivity.
Qed.

Lemma shade_idempotent (m : Mesh) (flat : bool) :
  shade (shade m flat) flat = shade m flat.
Proof.
  unfold shade, set_polygons. cbn. f_equal.
  rewrite <- !list_fmap_compose. reflexivity.
Qed.

(** A file-backed record whose file loads is converted, and the mesh is the
    loaded one after the shading helper, called without a flip. *)
Lemma file_backed_converts (s : ShapeRecord) (filename : value) (m0 : Mesh) (w : world) :
  props s !! "filename" = Some filename →
  file_mesh s filename w = Some m0 →
  ∃ w',
    run (mi_shape_to_bl_shape env mi_context s) w =
      (Return (Some
         (_set_bl_mesh_shading env m0 (get s "face_normals" (VBool false))
            (VBool false),
          mi_space_to_bl_space mi_context
            (mi_transform_to_bl_transform env (get s "to_world" VNone)))), w').
Proof.
  intros Hf Hm. unfold file_mesh in Hm. cbv zeta in Hm.
  case_bool_decide as Hply.
  - rewrite (run_dispatch_ply _ _ Hply), run_mi_ply, Hf. cbv zeta. rewrite Hm.
    eexists. reflexivity.
  - case_bool_decide as Hobj; [|discriminate].
    rewrite (run_dispatch_obj _ _ Hobj), run_mi_obj, Hf. cbv zeta.
    destruct (bl_import_obj_load env _) as [|m rest]; [discriminate|].
    cbn in Hm. injection Hm as <-. eexists. reflexivity.
Qed.

(** *** The sphere generator *)

Lemma Forall_of_forallb {A} (f : A → bool) (l : list A) :
  forallb f l = true → Forall (λ x, f x = true) l.
Proof.
  induction l as [|x l IH]; cbn; [constructor|].
  intros H. apply andb_prop in H as [Hx Hl]. constructor; [exact Hx|auto].
Qed.

(** The tessellation with 32 by 16 segments: its size, and the distance of
    its vertices from the origin, before and after a scaling by 1.0. *)
Lemma uvsphere_32_16 :
  length (uvsphere_unit_vertices 32 16) = 482 ∧
  length (uvsphere_faces 32 16) = 512 ∧
  Forall (at_radius 1) (uvsphere_unit_vertices 32 16) ∧
  Forall (at_radius 1) (scale_point 1 <$> uvsphere_unit_vertices 32 16).
Proof.
  split; [vm_compute; reflexivity|]. split; [vm_compute; reflexivity|].
  split; apply Forall_of_forallb; vm_compute; reflexivity.
Qed.

Lemma length_polygons_set_bl_mesh_shading (m : Mesh) (flat_shading flip : value) :
  length (polygons (_set_bl_mesh_shading env m flat_shading flip))
  = length (polygons m).
Proof.
  rewrite set_bl_mesh_shading_eq. destruct (truthy env flip);
    unfold flip_normals, shade, set_polygons; cbn; rewrite ?length_fmap;
    reflexivity.
Qed.

Lemma mesh_vertices_sphere_mesh (s : ShapeRecord) (radius : float) (w : world) :
  mesh_vertices (sphere_mesh s (VFloat radius) w)
  = scale_point radius <$> uvsphere_unit_vertices 32 16.
Proof.
  unfold sphere_mesh. rewrite mesh_vertices_set_bl_mesh_shading. reflexivity.
Qed.

Lemma length_polygons_sphere_mesh (s : ShapeRecord) (radius : float) (w : world) :
  length (polygons (sphere_mesh s (VFloat radius) w)) = 512.
Proof.
  unfold sphere_mesh. rewrite length_polygons_set_bl_mesh_shading.
  unfold to_mesh, create_uvsphere, uvsphere. cbn [polygons bm_faces bmesh_new app].
  rewrite !length_fmap. apply uvsphere_32_16.
Qed.

(** *** Properties of the import *)

(** C1: a record whose kind is none of the seven supported ones makes the
    dispatcher return [None]; the only effect is one ERROR entry in the
    log, whose message quotes the kind.  No converter runs, no exception is
    raised, the clock is not read. *)
Theorem unsupported_kind_fails (s : ShapeRecord) (w : world) :
  plugin_name s ∉ supported_kinds →
  run (mi_shape_to_bl_shape env mi_context s) w =
    (Return None,
     {| trace := trace w ++
          [Log ("Mitsuba Shape type " +:+ dquote +:+ plugin_name s +:+ dquote
                  +:+ " not supported.") ERROR];
        clock := clock w |}).
Proof.
  intros Hk. unfold mi_shape_to_bl_shape. cbv zeta.
  rewrite (lookup_unsupported _ Hk). reflexivity.
Qed.

(** C2, as the code behaves: on a PLY record whose file does not load, the
    converter logs one ERROR and returns [None], and the dispatcher then
    fails to unpack that [None]: the call raises [TypeError] instead of
    returning a failed result. *)
Theorem ply_load_failure_raises (s : ShapeRecord) (filename : value) (w : world) :
  plugin_name s = "ply" →
  props s !! "filename" = Some filename →
  load_ply_mesh env (resolve_scene_relative_path mi_context filename) (id s) = None →
  let w' :=
    {| trace := trace w ++
         [ResolvePath filename;
          LoadPly (resolve_scene_relative_path mi_context filename) (id s);
          Log ("Cannot load PLY mesh file " +:+ dquote +:+ py_str env filename
                 +:+ dquote +:+ ".") ERROR];
       clock := clock w |} in
  run (mi_ply_to_bl_shape env mi_context s) w = (Return None, w') ∧
  run (mi_shape_to_bl_shape env mi_context s) w = (Raise TypeError, w').
Proof.
  intros Hk Hf Hload w'.
  assert (Hply : run (mi_ply_to_bl_shape env mi_context s) w = (Return None, w')).
  { unfold mi_ply_to_bl_shape. rewrite (has_property_Some _ _ _ Hf).
    py_unfold. rewrite Hf. cbn -[String.append]. rewrite Hload.
    cbn -[String.append]. subst w'. rewrite <- !app_assoc. reflexivity. }
  split; [exact Hply|].
  rewrite (dispatch_supported s (mi_ply_to_bl_shape env)).
  - rewrite Hply. reflexivity.
  - rewrite Hk. reflexivity.
Qed.

(** C3, amended: a PLY or OBJ record whose file loads has its mesh passed
    through the shading helper with the value of [face_normals], and
    without that property the default is smooth shading: every face is
    marked smooth.  A present [face_normals] selects flat (true) or smooth
    (false). *)
Theorem file_loaders_shade_smooth_by_default
    (s : ShapeRecord) (filename : value) (m0 : Mesh) (w : world) :
  props s !! "filename" = Some filename →
  file_mesh s filename w = Some m0 →
  let flat :=
    match props s !! "face_normals" with
    | None => false
    | Some v => truthy env v
    end in
  ∃ mesh tr w',
    run (mi_shape_to_bl_shape env mi_context s) w = (Return (Some (mesh, tr)), w') ∧
    mesh = _set_bl_mesh_shading env m0 (get s "face_normals" (VBool false))
             (VBool false) ∧
    mesh = shade m0 flat ∧
    Forall (λ p, use_smooth p = negb flat) (polygons mesh).
Proof.
  intros Hf Hm flat.
  destruct (file_backed_converts s filename m0 w Hf Hm) as [w' Hrun].
  eexists _, _, w'. split; [exact Hrun|]. split; [reflexivity|].
  assert (Hflat : truthy env (get s "face_normals" (VBool false)) = flat).
  { unfold get, flat. destruct (props s !! "face_normals"); reflexivity. }
  rewrite set_bl_mesh_shading_eq, Hflat. cbn.
  split; [reflexivity|]. apply use_smooth_shade.
Qed.

(** C4: the two placement modes of the sphere.  With [to_world] the
    transform is that matrix converted to Blender space, and the mesh is
    the tessellation of the unit sphere (32 by 16 segments, 482 vertices
    at distance 1.0 from the origin, 512 faces), whatever [radius] says.
    Without [to_world] the transform is the translation to the converted
    [center] (default: the origin), and the vertices of the mesh are those
    of the unit tessellation scaled by [radius] (default 1.0): the radius
    is in the geometry, not in the transform. *)
Theorem sphere_placement_modes (s : ShapeRecord) (w : world) :
  plugin_name s = "sphere" →
  let w' := {| trace := trace w ++ [NewMesh (id s)]; clock := clock w |} in
  (∀ to_world, props s !! "to_world" = Some to_world →
     ∃ mesh,
       run (mi_shape_to_bl_shape env mi_context s) w =
         (Return (Some
            (mesh,
             mi_space_to_bl_space mi_context
               (mi_transform_to_bl_transform env to_world))), w') ∧
       mesh = sphere_mesh s (VFloat 1%float) w ∧
       mesh_vertices mesh = scale_point 1 <$> uvsphere_unit_vertices 32 16 ∧
       Forall (at_radius 1) (mesh_vertices mesh) ∧
       length (mesh_vertices mesh) = 482 ∧
       length (polygons mesh) = 512 ∧
       ∀ r, run (mi_shape_to_bl_shape env mi_context (set_property s "radius" r)) w =
            run (mi_shape_to_bl_shape env mi_context s) w) ∧
  (props s !! "to_world" = None →
     ∀ radius, get s "radius" (VFloat 1%float) = VFloat radius →
     ∃ mesh,
       run (mi_shape_to_bl_shape env mi_context s) w =
         (Return (Some
            (mesh,
             Matrix_Translation env
               (mi_space_to_bl_space_vec mi_context
                  (Vector_new env
                     (get s "center"
                        (VList [VFloat 0%float; VFloat 0%float; VFloat 0%float])))))),
          w') ∧
       mesh = sphere_mesh s (VFloat radius) w ∧
       mesh_vertices mesh = scale_point radius <$> uvsphere_unit_vertices 32 16 ∧
       length (mesh_vertices mesh) = 482 ∧
       length (polygons mesh) = 512) ∧
  Forall (at_radius 1) (uvsphere_unit_vertices 32 16).
Proof.
  intros Hk w'. split; [|split; [|apply uvsphere_32_16]].
  - intros to_world Htw. eexists.
    split.
    { rewrite (run_dispatch_sphere _ _ Hk), run_mi_sphere.
      rewrite (has_property_Some _ _ _ Htw), (get_Some _ _ _ _ Htw). reflexivity. }
    split; [reflexivity|].
    split; [apply mesh_vertices_sphere_mesh|].
    split; [rewrite mesh_vertices_sphere_mesh; apply uvsphere_32_16|].
    split; [rewrite mesh_vertices_sphere_mesh, length_fmap; apply uvsphere_32_16|].
    split; [apply length_polygons_sphere_mesh|].
    intros r. rewrite !run_dispatch_sphere by exact Hk. rewrite !run_mi_sphere.
    assert (Htw' : props (set_property s "radius" r) !! "to_world" = Some to_world).
    { unfold set_property. cbn. rewrite lookup_insert_ne by done. exact Htw. }
    rewrite (has_property_Some _ _ _ Htw), (has_property_Some _ _ _ Htw').
    rewrite (get_Some _ _ _ _ Htw), (get_Some _ _ _ _ Htw').
    unfold sphere_mesh, get, set_property. cbn [props id].
    rewrite lookup_insert_ne by done. reflexivity.
  - intros Htw radius Hr. eexists.
    split.
    { rewrite (run_dispatch_sphere _ _ Hk), run_mi_sphere.
      rewrite (has_property_None _ _ Htw), Hr. reflexivity. }
    split; [reflexivity|].
    split; [apply mesh_vertices_sphere_mesh|].
    split; [rewrite mesh_vertices_sphere_mesh, length_fmap; apply uvsphere_32_16|].
    apply length_polygons_sphere_mesh.
Qed.

(** C5, amended: whenever a conversion returns a pair, the transform of a
    serialized record is the matrix computed from [to_world], the identity
    when [to_world] is absent, and it is not converted to Blender space;
    the serialized mesh is created by asking Blender for the [id] of the
    record as its name, and carries the name that Blender assigns to that
    request.  The transform of a sphere without [to_world] is the
    translation to the converted [center]; the transform of any other
    record is the matrix computed from [to_world], converted to Blender
    space. *)
Theorem transform_conversion_by_kind
    (s : ShapeRecord) (w w' : world) (mesh : Mesh) (tr : Matrix) :
  run (mi_shape_to_bl_shape env mi_context s) w = (Return (Some (mesh, tr)), w') →
  let raw := mi_transform_to_bl_transform env (get s "to_world" VNone) in
  (plugin_name s = "serialized" →
     tr = raw ∧
     (props s !! "to_world" = None → tr = Matrix_identity env) ∧
     ∃ filename evs,
       props s !! "filename" = Some filename ∧
       let loaded :=
         trace w ++
         [ResolvePath filename;
          MiLoadDict "serialized" (resolve_scene_relative_path mi_context filename)
            (get s "shape_index" VNone)] in
       trace w' = loaded ++ NewMesh (id s) :: evs ∧
       name mesh = assigned_name env loaded (id s)) ∧
  (plugin_name s = "sphere" → props s !! "to_world" = None →
     tr = Matrix_Translation env
            (mi_space_to_bl_space_vec mi_context
               (Vector_new env
                  (get s "center"
                     (VList [VFloat 0%float; VFloat 0%float; VFloat 0%float]))))) ∧
  (plugin_name s ≠ "serialized" →
   (plugin_name s = "sphere" → is_Some (props s !! "to_world")) →
     tr = mi_space_to_bl_space mi_context raw).
Proof.
  intros Hrun raw.
  destruct (decide (plugin_name s ∈ supported_kinds)) as [Hk|Hk].
  2: { unfold mi_shape_to_bl_shape in Hrun. cbv zeta in Hrun.
       rewrite (lookup_unsupported _ Hk) in Hrun. discriminate. }
  unfold supported_kinds in Hk. rewrite !elem_of_cons, elem_of_nil in Hk.
  destruct Hk as [Hk|[Hk|[Hk|[Hk|[Hk|[Hk|[Hk|[]]]]]]]].
  - rewrite (run_dispatch_ply _ _ Hk), run_mi_ply in Hrun.
    destruct (props s !! "filename"); [|discriminate]. cbv zeta in Hrun.
    destruct (load_ply_mesh env _ _); [|discriminate].
    injection Hrun as <- <- <-. rewrite Hk. repeat split; done.
  - rewrite (run_dispatch_obj _ _ Hk), run_mi_obj in Hrun.
    destruct (props s !! "filename"); [|discriminate]. cbv zeta in Hrun.
    destruct (bl_import_obj_load env _); [discriminate|].
    injection Hrun as <- <- <-. rewrite Hk. repeat split; done.
  - rewrite (run_dispatch_sphere _ _ Hk), run_mi_sphere in Hrun.
    injection Hrun as <- <- <-. rewrite Hk.
    split; [done|]. split.
    + intros _ Htw. rewrite (has_property_None _ _ Htw). reflexivity.
    + intros _ Htw. destruct (Htw eq_refl) as [v Hv].
      rewrite (has_property_Some _ _ _ Hv). reflexivity.
  - rewrite (run_dispatch_disk _ _ Hk), run_mi_disk in Hrun.
    injection Hrun as <- <- <-. rewrite Hk. repeat split; done.
  - rewrite (run_dispatch_rectangle _ _ Hk), run_mi_rectangle in Hrun.
    injection Hrun as <- <- <-. rewrite Hk. repeat split; done.
  - rewrite (run_dispatch_cube _ _ Hk), run_mi_cube in Hrun.
    injection Hrun as <- <- <-. rewrite Hk. repeat split; done.
  - rewrite (run_dispatch_serialized _ _ Hk), run_mi_serialized, Hk in Hrun.
    destruct (props s !! "filename") as [filename|]; [|discriminate].
    cbv zeta in Hrun.
    destruct (_ && _); [|discriminate].
    injection Hrun as <- <- <-.
    split; [|split; [intros H; rewrite Hk in H; discriminate
                    |intros Hne; contradiction]].
    intros _. split; [reflexivity|]. split.
    + intros Htw. subst raw. rewrite (get_None _ _ _ Htw). reflexivity.
    + eexists filename, _. split; [reflexivity|]. cbv zeta. cbn [trace].
      rewrite <- !app_assoc. split; reflexivity.
Qed.

(** C6, amended: the OBJ converter, on a record with a [filename] whose
    file holds the meshes [m0 :: rest], converts entry zero.  One WARN is
    logged exactly when [rest] is not empty.  The mesh is then given the
    [id] of the record as its name, and carries the name that Blender
    assigns to that request.  One INFO closes the trace; it reports, in
    the [.2f] format, the time between the clock reading taken before the
    path is resolved and the file loaded and the reading taken after the
    load, the warning and the renaming.  The dispatcher forwards the
    result. *)
Theorem obj_loader_uses_first_mesh
    (s : ShapeRecord) (filename : value) (m0 : Mesh) (rest : list Mesh) (w : world) :
  plugin_name s = "obj" →
  props s !! "filename" = Some filename →
  bl_import_obj_load env (resolve_scene_relative_path mi_context filename)
    = m0 :: rest →
  let path := resolve_scene_relative_path mi_context filename in
  let warned :=
    match rest with
    | [] => []
    | _ :: _ =>
        [Log "OBJ file containing more than one mesh. Only the first one will be loaded."
           WARN]
    end in
  let at_rename := trace w ++ [ResolvePath filename; LoadObj path] ++ warned in
  let took :=
    format_2f env
      (time_at env (at_rename ++ [RenameMesh (id s)]) (S (clock w))
       - time_at env (trace w) (clock w))%float in
  let mesh :=
    _set_bl_mesh_shading env (set_name m0 (assigned_name env at_rename (id s)))
      (get s "face_normals" (VBool false)) (VBool false) in
  let result :=
    (Return (Some (mesh,
        mi_space_to_bl_space mi_context
          (mi_transform_to_bl_transform env (get s "to_world" VNone)))),
     {| trace := at_rename ++
          [RenameMesh (id s);
           Log ("Loaded OBJ mesh " +:+ dquote +:+ id s +:+ dquote +:+ ". Took "
                  +:+ took +:+ "s.") INFO];
        clock := S (S (clock w)) |}) in
  run (mi_obj_to_bl_shape env mi_context s) w = result ∧
  run (mi_shape_to_bl_shape env mi_context s) w = result ∧
  name mesh = assigned_name env at_rename (id s) ∧
  mesh_vertices mesh = mesh_vertices m0 ∧
  winding mesh = winding m0.
Proof.
  intros Hk Hf Hload path warned at_rename took mesh result.
  assert (Hobj : run (mi_obj_to_bl_shape env mi_context s) w = result).
  { rewrite run_mi_obj, Hf. cbv zeta. unfold obj_trace_at_rename. rewrite Hload.
    subst result warned mesh took at_rename path. destruct rest; reflexivity. }
  split; [exact Hobj|]. split.
  - rewrite (run_dispatch_obj _ _ Hk), Hobj. reflexivity.
  - subst mesh. rewrite name_set_bl_mesh_shading, mesh_vertices_set_bl_mesh_shading.
    rewrite set_bl_mesh_shading_eq. cbn [truthy]. rewrite winding_shade.
    repeat split.
Qed.

(** C7: with a true [flip_normals] the helper returns the mesh it returns
    with a false one, flipped: the shading flags are the same in both
    shading modes and every face runs through its loop in the opposite
    direction.  Flipping twice gives the mesh back, and so does a second
    call of the helper with a true [flip_normals]. *)
Theorem flip_normals_round_trip (m : Mesh) (flat_shading on off : value) :
  truthy env on = true →
  truthy env off = false →
  let flipped := _set_bl_mesh_shading env m flat_shading on in
  let plain := _set_bl_mesh_shading env m flat_shading off in
  flipped = flip_normals plain ∧
  plain = shade m (truthy env flat_shading) ∧
  winding flipped = flip_loop <$> winding plain ∧
  Forall2 (λ l' l, l' = rotate (length l - 1) (rev l))
    (winding flipped) (winding plain) ∧
  use_smooth <$> polygons flipped = use_smooth <$> polygons plain ∧
  flip_normals (flip_normals plain) = plain ∧
  flip_normals flipped = plain ∧
  _set_bl_mesh_shading env flipped flat_shading on = plain.
Proof.
  intros Hon Hoff flipped plain. subst flipped plain.
  rewrite !set_bl_mesh_shading_eq, Hon, Hoff.
  rewrite shade_flip_normals, shade_idempotent, !flip_normals_involutive.
  rewrite winding_flip_normals.
  repeat split.
  - apply Forall2_fmap_l, Forall_Forall2_diag, Forall_forall.
    intros l _. apply flip_loop_reverses.
  - unfold flip_normals, set_polygons. cbn. rewrite <- list_fmap_compose.
    reflexivity.
Qed.

(** C8: a PLY, OBJ or serialized record without [filename] makes the
    converter, and with it the dispatcher, fail with [AssertionError]
    before any path is resolved or any file is opened: the trace is left
    as it was. *)
Theorem missing_filename_asserts (s : ShapeRecord) (w : world) :
  plugin_name s ∈ ["ply"; "obj"; "serialized"] →
  has_property s "filename" = false →
  ∃ convert w',
    _shape_converters env !! plugin_name s = Some convert ∧
    run (convert mi_context s) w = (Raise AssertionError, w') ∧
    run (mi_shape_to_bl_shape env mi_context s) w = (Raise AssertionError, w') ∧
    trace w' = trace w.
Proof.
  intros Hk Hf. apply has_property_false in Hf.
  rewrite !elem_of_cons, elem_of_nil in Hk.
  destruct Hk as [Hk|[Hk|[Hk|[]]]].
  - exists (mi_ply_to_bl_shape env), w.
    rewrite (run_dispatch_ply _ _ Hk), run_mi_ply, Hf, Hk.
    repeat split.
  - exists (mi_obj_to_bl_shape env), {| trace := trace w; clock := S (clock w) |}.
    rewrite (run_dispatch_obj _ _ Hk), run_mi_obj, Hf, Hk.
    repeat split.
  - exists (mi_serialized_to_bl_shape env),
      {| trace := trace w; clock := S (clock w) |}.
    rewrite (run_dispatch_serialized _ _ Hk), run_mi_serialized, Hf, Hk.
    repeat split.
Qed.

(** C9: the cube converter builds the cube of edge length 2.0: its 8
    vertices are the corners with coordinates -1.0 and 1.0, its 6 faces
    are quadrilaterals (12 triangles once each is split), flat shaded, and
    every edge of a face has the squared length 4.0. *)
Theorem cube_spans_unit_box (s : ShapeRecord) (w : world) :
  plugin_name s = "cube" →
  ∃ mesh tr,
    run (mi_shape_to_bl_shape env mi_context s) w =
      (Return (Some (mesh, tr)),
       {| trace := trace w ++ [NewMesh (id s)]; clock := clock w |}) ∧
    mesh_vertices mesh =
      [ (-1, -1, -1); (-1, -1, 1); (-1, 1, -1); (-1, 1, 1);
        (1, -1, -1); (1, -1, 1); (1, 1, -1); (1, 1, 1) ]%float ∧
    winding mesh =
      (if truthy env (get s "flip_normals" (VBool false))
       then flip_loop <$> cube_faces else cube_faces) ∧
    length (polygons mesh) = 6 ∧
    Forall (λ p, length (vertices p) = 4 ∧ use_smooth p = false) (polygons mesh) ∧
    triangle_count mesh = 12 ∧
    Forall (λ p, Forall (λ e, edge_length2 mesh e = Some 4%float)
                   (loop_edges (vertices p))) (polygons mesh).
Proof.
  intros Hk. eexists _, _.
  rewrite (run_dispatch_cube _ _ Hk), run_mi_cube.
  split; [reflexivity|].
  rewrite set_bl_mesh_shading_eq.
  destruct (truthy env (get s "flip_normals" (VBool false)));
    (split; [reflexivity|]); (split; [reflexivity|]); (split; [reflexivity|]);
    (split; [repeat constructor|]); (split; [reflexivity|]);
    repeat constructor.
Qed.

(** C10: the file-backed converters never read [flip_normals].  Whatever
    value the property has, the conversion is the one of the record
    without the property; the shading helper is called with the flip
    disabled, and the faces of the result keep the winding of the loaded
    mesh. *)
Theorem file_loaders_ignore_flip_normals (s : ShapeRecord) (v : value) (w : world) :
  plugin_name s = "ply" ∨ plugin_name s = "obj" →
  run (mi_shape_to_bl_shape env mi_context (set_property s "flip_normals" v)) w =
    run (mi_shape_to_bl_shape env mi_context (del_property s "flip_normals")) w ∧
  ∀ filename m0,
    props s !! "filename" = Some filename →
    file_mesh s filename w = Some m0 →
    ∃ tr w',
      run (mi_shape_to_bl_shape env mi_context s) w =
        (Return (Some
           (_set_bl_mesh_shading env m0 (get s "face_normals" (VBool false))
              (VBool false), tr)), w') ∧
      winding (_set_bl_mesh_shading env m0 (get s "face_normals" (VBool false))
                 (VBool false)) = winding m0.
Proof.
  intros Hk. split.
  - destruct Hk as [Hk|Hk].
    + rewrite !run_dispatch_ply by exact Hk. rewrite !run_mi_ply.
      unfold get, set_property, del_property. cbn.
      rewrite !lookup_insert_ne, !lookup_delete_ne by done. reflexivity.
    + rewrite !run_dispatch_obj by exact Hk. rewrite !run_mi_obj.
      unfold get, set_property, del_property. cbn.
      rewrite !lookup_insert_ne, !lookup_delete_ne by done. reflexivity.
  - intros filename m0 Hf Hm.
    destruct (file_backed_converts s filename m0 w Hf Hm) as [w' Hrun].
    eexists _, w'. split; [exact Hrun|].
    rewrite set_bl_mesh_shading_eq. cbn. apply winding_shade.
Qed.

(** *** Further properties of the converters *)

Lemma flat3_rows3 {A} (n : nat) (l : list A) :
  length l = n * 3 → flat3 (rows3 l) = l.
Proof.
  revert l. induction n as [|n IH]; intros l Hl.
  - destruct l; [reflexivity|discriminate].
  - destruct l as [|a [|b [|c l]]]; try discriminate.
    cbn in Hl. unfold flat3 in *. cbn. rewrite IH by lia. reflexivity.
Qed.

Lemma use_smooth_set_bl_mesh_shading (m : Mesh) (flat_shading flip : value) :
  Forall (λ p, use_smooth p = negb (truthy env flat_shading))
    (polygons (_set_bl_mesh_shading env m flat_shading flip)).
Proof.
  rewrite set_bl_mesh_shading_eq. destruct (truthy env flip).
  - unfold flip_normals, shade, set_polygons. cbn.
    rewrite <- list_fmap_compose. apply Forall_fmap, Forall_true. reflexivity.
  - apply use_smooth_shade.
Qed.

(** X1: an OBJ file that holds no mesh makes the conversion raise
    [IndexError] at [bl_meshes[0]], after the file was read and before
    anything is logged: no WARN, no INFO, no ERROR. *)
Theorem obj_loader_empty_file_raises
    (s : ShapeRecord) (filename : value) (w : world) :
  plugin_name s = "obj" →
  props s !! "filename" = Some filename →
  bl_import_obj_load env (resolve_scene_relative_path mi_context filename) = [] →
  run (mi_shape_to_bl_shape env mi_context s) w =
    (Raise IndexError,
     {| trace := trace w ++
          [ResolvePath filename;
           LoadObj (resolve_scene_relative_path mi_context filename)];
        clock := S (clock w) |}).
Proof.
  intros Hk Hf Hload.
  rewrite (run_dispatch_obj _ _ Hk), run_mi_obj, Hf. cbv zeta.
  rewrite Hload. reflexivity.
Qed.

(** X2: when the arrays of a serialized mesh do not hold three entries
    per announced vertex or face, the conversion raises [ValueError] in
    [reshape]; by then the empty Blender mesh has been created under the
    [id] of the record, and nothing is logged. *)
Theorem serialized_malformed_arrays_raise
    (s : ShapeRecord) (filename : value) (w : world) :
  plugin_name s = "serialized" →
  props s !! "filename" = Some filename →
  let path := resolve_scene_relative_path mi_context filename in
  let shape_index := get s "shape_index" VNone in
  let params := mi_load_dict env "serialized" path shape_index in
  length (vertex_positions params) ≠ vertex_count params * 3 ∨
  length (faces params) ≠ face_count params * 3 →
  run (mi_shape_to_bl_shape env mi_context s) w =
    (Raise ValueError,
     {| trace := trace w ++
          [ResolvePath filename; MiLoadDict "serialized" path shape_index;
           NewMesh (id s)];
        clock := S (clock w) |}).
Proof.
  intros Hk Hf path shape_index params Hbad.
  rewrite (run_dispatch_serialized _ _ Hk), run_mi_serialized, Hf, Hk. cbv zeta.
  fold path shape_index params.
  destruct Hbad as [Hbad|Hbad].
  - rewrite (bool_decide_eq_false_2 _ Hbad). reflexivity.
  - rewrite (bool_decide_eq_false_2 _ Hbad), andb_false_r. reflexivity.
Qed.

(** X3: a serialized mesh whose arrays fit is rebuilt from them as they
    are: the vertices are the rows of [vertex_positions], the faces are
    the rows of [faces], all triangles; the shading helper is not called,
    so every face keeps the flat default. *)
Theorem serialized_mesh_from_arrays
    (s : ShapeRecord) (filename : value) (w : world) :
  plugin_name s = "serialized" →
  props s !! "filename" = Some filename →
  let path := resolve_scene_relative_path mi_context filename in
  let shape_index := get s "shape_index" VNone in
  let params := mi_load_dict env "serialized" path shape_index in
  length (vertex_positions params) = vertex_count params * 3 →
  length (faces params) = face_count params * 3 →
  ∃ mesh tr w',
    run (mi_shape_to_bl_shape env mi_context s) w = (Return (Some (mesh, tr)), w') ∧
    length (mesh_vertices mesh) = vertex_count params ∧
    flat3 (mesh_vertices mesh) = vertex_positions params ∧
    length (polygons mesh) = face_count params ∧
    concat (winding mesh) = faces params ∧
    Forall (λ p, length (vertices p) = 3 ∧ use_smooth p = false) (polygons mesh).
Proof.
  intros Hk Hf path shape_index params Hv Hfc.
  rewrite (run_dispatch_serialized _ _ Hk), run_mi_serialized, Hf, Hk. cbv zeta.
  fold path shape_index params.
  rewrite (bool_decide_eq_true_2 _ Hv), (bool_decide_eq_true_2 _ Hfc). cbn [andb].
  eexists _, _, _. split; [reflexivity|].
  unfold calc_normals, from_pydata, new_mesh, winding. cbn.
  split; [apply (length_rows3 _ _ Hv)|].
  split; [apply (flat3_rows3 _ _ Hv)|].
  split; [rewrite length_fmap; apply (length_rows3 _ _ Hfc)|].
  split.
  - rewrite <- list_fmap_compose. rewrite <- (flat3_rows3 _ _ Hfc) at 2.
    unfold flat3. generalize (rows3 (faces params)). intros rows.
    induction rows as [|[[a b] c] rows IH]; [reflexivity|].
    cbn. rewrite IH. reflexivity.
  - apply Forall_fmap, Forall_true. intros [[a b] c]. split; reflexivity.
Qed.

(** X8: on success the PLY converter neither logs nor reads the clock, and
    it does not rename the mesh: the [id] of the record goes to the loader,
    and the name, the vertices and the winding of the result are those of
    the mesh the loader returned. *)
Theorem ply_loader_keeps_loaded_mesh
    (s : ShapeRecord) (filename : value) (m0 : Mesh) (w : world) :
  plugin_name s = "ply" →
  props s !! "filename" = Some filename →
  load_ply_mesh env (resolve_scene_relative_path mi_context filename) (id s)
    = Some m0 →
  ∃ mesh tr,
    run (mi_shape_to_bl_shape env mi_context s) w =
      (Return (Some (mesh, tr)),
       {| trace := trace w ++
            [ResolvePath filename;
             LoadPly (resolve_scene_relative_path mi_context filename) (id s)];
          clock := clock w |}) ∧
    name mesh = name m0 ∧
    mesh_vertices mesh = mesh_vertices m0 ∧
    winding mesh = winding m0 ∧
    uv_layer mesh = uv_layer m0.
Proof.
  intros Hk Hf Hload.
  rewrite (run_dispatch_ply _ _ Hk), run_mi_ply, Hf. cbv zeta. rewrite Hload.
  eexists _, _. split; [reflexivity|].
  rewrite name_set_bl_mesh_shading, mesh_vertices_set_bl_mesh_shading.
  rewrite set_bl_mesh_shading_eq. cbn [truthy]. rewrite winding_shade.
  repeat split.
Qed.

Lemma shade_shade (m : Mesh) (a b : bool) : shade (shade m a) b = shade m b.
Proof.
  unfold shade, set_polygons. cbn. f_equal.
  rewrite <- !list_fmap_compose. reflexivity.
Qed.

Lemma flip_loop_Permutation (loop : list nat) : flip_loop loop ≡ₚ loop.
Proof.
  destruct loop as [|v vs]; [reflexivity|]. cbn.
  constructor. symmetry. apply Permutation_rev.
Qed.

(** X4: the shading helper changes flags and loop order only.  The name,
    the vertices, the UV layer and the number of faces stay; every face
    keeps its set of vertices; and all faces get the same flag, smooth
    exactly when [flat_shading] is false. *)
Theorem set_bl_mesh_shading_keeps_geometry (m : Mesh) (flat_shading flip : value) :
  let m' := _set_bl_mesh_shading env m flat_shading flip in
  name m' = name m ∧
  mesh_vertices m' = mesh_vertices m ∧
  uv_layer m' = uv_layer m ∧
  length (polygons m') = length (polygons m) ∧
  Forall2 (λ l' l, l' ≡ₚ l) (winding m') (winding m) ∧
  Forall (λ p, use_smooth p = negb (truthy env flat_shading)) (polygons m').
Proof.
  cbv zeta.
  split; [apply name_set_bl_mesh_shading|].
  split; [apply mesh_vertices_set_bl_mesh_shading|].
  split; [|split; [|split; [|apply use_smooth_set_bl_mesh_shading]]];
    rewrite set_bl_mesh_shading_eq; destruct (truthy env flip).
  - reflexivity.
  - reflexivity.
  - unfold flip_normals, shade, set_polygons. cbn. rewrite !length_fmap. reflexivity.
  - unfold shade, set_polygons. cbn. rewrite length_fmap. reflexivity.
  - rewrite winding_flip_normals, winding_shade.
    apply Forall2_fmap_l, Forall_Forall2_diag, Forall_forall.
    intros l _. apply flip_loop_Permutation.
  - rewrite winding_shade. apply Forall_Forall2_diag, Forall_forall.
    intros l _. reflexivity.
Qed.

(** X5: two calls of the shading helper in a row amount to one: the
    shading mode of the second call wins and the two flips add up, so
    that two flips cancel.  Without a flip the helper is idempotent. *)
Theorem set_bl_mesh_shading_twice (m : Mesh) (flat1 flip1 flat2 flip2 : value) :
  _set_bl_mesh_shading env (_set_bl_mesh_shading env m flat1 flip1) flat2 flip2 =
    _set_bl_mesh_shading env m flat2
      (VBool (xorb (truthy env flip1) (truthy env flip2))).
Proof.
  rewrite !set_bl_mesh_shading_eq. cbn [truthy].
  destruct (truthy env flip1), (truthy env flip2); cbn [xorb];
    rewrite ?shade_flip_normals, ?shade_shade, ?flip_normals_involutive;
    reflexivity.
Qed.

(** X6: whenever the conversion of a sphere, disk, rectangle or cube
    record returns a pair, its faces are all smooth for a sphere and all
    flat for the three other kinds, and the one effect of the conversion
    has been the request for one new Blender mesh under the [id] of the
    record: nothing was logged and the clock was not read. *)
Theorem primitives_shading_by_kind
    (s : ShapeRecord) (w w' : world) (mesh : Mesh) (tr : Matrix) :
  plugin_name s ∈ primitive_kinds →
  run (mi_shape_to_bl_shape env mi_context s) w = (Return (Some (mesh, tr)), w') →
  w' = {| trace := trace w ++ [NewMesh (id s)]; clock := clock w |} ∧
  Forall (λ p, use_smooth p = String.eqb (plugin_name s) "sphere") (polygons mesh).
Proof.
  intros Hk Hrun. unfold primitive_kinds in Hk.
  rewrite !elem_of_cons, elem_of_nil in Hk.
  destruct Hk as [Hk|[Hk|[Hk|[Hk|[]]]]].
  - rewrite (run_dispatch_sphere _ _ Hk), run_mi_sphere in Hrun.
    injection Hrun as <- _ <-. rewrite Hk. split; [reflexivity|].
    unfold sphere_mesh. exact (use_smooth_set_bl_mesh_shading _ (VBool false) _).
  - rewrite (run_dispatch_disk _ _ Hk), run_mi_disk in Hrun.
    injection Hrun as <- _ <-. rewrite Hk. split; [reflexivity|].
    exact (use_smooth_set_bl_mesh_shading _ (VBool true) _).
  - rewrite (run_dispatch_rectangle _ _ Hk), run_mi_rectangle in Hrun.
    injection Hrun as <- _ <-. rewrite Hk. split; [reflexivity|].
    exact (use_smooth_set_bl_mesh_shading _ (VBool true) _).
  - rewrite (run_dispatch_cube _ _ Hk), run_mi_cube in Hrun.
    injection Hrun as <- _ <-. rewrite Hk. split; [reflexivity|].
    exact (use_smooth_set_bl_mesh_shading _ (VBool true) _).
Qed.

Lemma get_set_property (s : ShapeRecord) k v d : get (set_property s k v) k d = v.
Proof. unfold get, set_property. cbn. rewrite lookup_insert_eq. reflexivity. Qed.

Lemma get_del_property (s : ShapeRecord) k d : get (del_property s k) k d = d.
Proof. unfold get, del_property. cbn. rewrite lookup_delete_eq. reflexivity. Qed.

Lemma get_set_property_ne (s : ShapeRecord) k k' v d :
  k ≠ k' → get (set_property s k v) k' d = get s k' d.
Proof. intros H. unfold get, set_property. cbn. rewrite lookup_insert_ne; done. Qed.

Lemma get_del_property_ne (s : ShapeRecord) k k' d :
  k ≠ k' → get (del_property s k) k' d = get s k' d.
Proof. intros H. unfold get, del_property. cbn. rewrite lookup_delete_ne; done. Qed.

Lemma has_property_set_property_ne (s : ShapeRecord) k k' v :
  k ≠ k' → has_property (set_property s k v) k' = has_property s k'.
Proof.
  intros H. unfold has_property, set_property. cbn. rewrite lookup_insert_ne; done.
Qed.

Lemma has_property_del_property_ne (s : ShapeRecord) k k' :
  k ≠ k' → has_property (del_property s k) k' = has_property s k'.
Proof.
  intros H. unfold has_property, del_property. cbn. rewrite lookup_delete_ne; done.
Qed.

(** X7: on the four generated kinds [flip_normals] does what it says and
    nothing more: with a true value the mesh is the mesh of the record
    without the property, flipped; with a false value it is that mesh.
    The transform and the effects are the same in both cases. *)
Theorem primitives_flip_on_request (s : ShapeRecord) (v : value) (w : world) :
  plugin_name s ∈ primitive_kinds →
  ∃ mesh tr w',
    run (mi_shape_to_bl_shape env mi_context (del_property s "flip_normals")) w =
      (Return (Some (mesh, tr)), w') ∧
    run (mi_shape_to_bl_shape env mi_context (set_property s "flip_normals" v)) w =
      (Return (Some (if truthy env v then flip_normals mesh else mesh, tr)), w').
Proof.
  intros Hk. unfold primitive_kinds in Hk.
  rewrite !elem_of_cons, elem_of_nil in Hk.
  destruct Hk as [Hk|[Hk|[Hk|[Hk|[]]]]]; eexists _, _, _.
  - rewrite !run_dispatch_sphere by exact Hk. rewrite !run_mi_sphere.
    unfold sphere_mesh.
    rewrite has_property_set_property_ne, has_property_del_property_ne by done.
    rewrite get_set_property, get_del_property.
    rewrite !get_set_property_ne, !get_del_property_ne by done.
    rewrite !set_bl_mesh_shading_eq. cbn [truthy id set_property del_property].
    split; reflexivity.
  - rewrite !run_dispatch_disk by exact Hk. rewrite !run_mi_disk.
    rewrite get_set_property, get_del_property.
    rewrite !get_set_property_ne, !get_del_property_ne by done.
    rewrite !set_bl_mesh_shading_eq. cbn [truthy id set_property del_property].
    split; reflexivity.
  - rewrite !run_dispatch_rectangle by exact Hk. rewrite !run_mi_rectangle.
    rewrite get_set_property, get_del_property.
    rewrite !get_set_property_ne, !get_del_property_ne by done.
    rewrite !set_bl_mesh_shading_eq. cbn [truthy id set_property del_property].
    split; reflexivity.
  - rewrite !run_dispatch_cube by exact Hk. rewrite !run_mi_cube.
    rewrite get_set_property, get_del_property.
    rewrite !get_set_property_ne, !get_del_property_ne by done.
    rewrite !set_bl_mesh_shading_eq. cbn [truthy id set_property del_property].
    split; reflexivity.
Qed.

Lemma supported_kinds_cases (k : string) :
  k ∈ supported_kinds →
  k = "ply" ∨ k = "obj" ∨ k = "sphere" ∨ k = "disk" ∨ k = "rectangle"
  ∨ k = "cube" ∨ k = "serialized".
Proof.
  unfold supported_kinds. rewrite !elem_of_cons, elem_of_nil. tauto.
Qed.

(** X9: [None] comes back from the dispatcher for an unsupported kind
    and for nothing else: on a kind of the table the call ends with a pair
    or with an exception. *)
Theorem none_result_means_unsupported (s : ShapeRecord) (w : world) :
  (∃ w', run (mi_shape_to_bl_shape env mi_context s) w = (Return None, w'))
  ↔ plugin_name s ∉ supported_kinds.
Proof.
  split.
  - intros [w' Hrun] Hk. apply supported_kinds_cases in Hk.
    destruct Hk as [Hk|[Hk|[Hk|[Hk|[Hk|[Hk|Hk]]]]]].
    + rewrite (run_dispatch_ply _ _ Hk), run_mi_ply in Hrun. cbv zeta in Hrun.
      repeat case_match; discriminate.
    + rewrite (run_dispatch_obj _ _ Hk), run_mi_obj in Hrun. cbv zeta in Hrun.
      repeat case_match; discriminate.
    + rewrite (run_dispatch_sphere _ _ Hk), run_mi_sphere in Hrun. discriminate.
    + rewrite (run_dispatch_disk _ _ Hk), run_mi_disk in Hrun. discriminate.
    + rewrite (run_dispatch_rectangle _ _ Hk), run_mi_rectangle in Hrun.
      discriminate.
    + rewrite (run_dispatch_cube _ _ Hk), run_mi_cube in Hrun. discriminate.
    + rewrite (run_dispatch_serialized _ _ Hk), run_mi_serialized in Hrun.
      cbv zeta in Hrun. repeat case_match; discriminate.
  - intros Hk. eexists. unfold mi_shape_to_bl_shape. cbv zeta.
    rewrite (lookup_unsupported _ Hk). reflexivity.
Qed.

(** X11: a conversion depends on the properties it reads and on no
    other: PLY and OBJ read [filename], [face_normals] and [to_world]; a
    sphere reads [to_world] and [flip_normals], and [center] and [radius]
    only when [to_world] is absent; disk, rectangle and cube read
    [flip_normals] and [to_world]; a serialized mesh reads [filename],
    [shape_index] and [to_world].  Setting any other property changes
    neither the outcome nor the effects. *)
Theorem conversion_reads_only (s : ShapeRecord) (k : string) (v : value) (w : world) :
  k ∉ properties_read s →
  run (mi_shape_to_bl_shape env mi_context (set_property s k v)) w =
    run (mi_shape_to_bl_shape env mi_context s) w.
Proof.
  intros Hnot.
  destruct (decide (plugin_name s ∈ supported_kinds)) as [Hk|Hk].
  2: { unfold mi_shape_to_bl_shape. cbv zeta. cbn [plugin_name set_property].
       rewrite (lookup_unsupported _ Hk). reflexivity. }
  apply supported_kinds_cases in Hk. unfold properties_read in Hnot.
  destruct Hk as [Hk|[Hk|[Hk|[Hk|[Hk|[Hk|Hk]]]]]]; rewrite Hk in Hnot;
    cbn [String.eqb Ascii.eqb Bool.eqb orb] in Hnot.
  - rewrite !not_elem_of_cons in Hnot. destruct Hnot as (H1 & H2 & H3 & _).
    rewrite !run_dispatch_ply by exact Hk. rewrite !run_mi_ply.
    rewrite !get_set_property_ne by done. cbn [props id set_property].
    rewrite lookup_insert_ne by done. reflexivity.
  - rewrite !not_elem_of_cons in Hnot. destruct Hnot as (H1 & H2 & H3 & _).
    rewrite !run_dispatch_obj by exact Hk. rewrite !run_mi_obj.
    rewrite !get_set_property_ne by done. cbn [props id set_property].
    rewrite lookup_insert_ne by done. reflexivity.
  - rewrite !run_dispatch_sphere by exact Hk. rewrite !run_mi_sphere.
    unfold sphere_mesh. cbn [id set_property].
    destruct (has_property s "to_world") eqn:Htw.
    + rewrite !not_elem_of_cons in Hnot. destruct Hnot as (H1 & H2 & _).
      rewrite has_property_set_property_ne, Htw by done.
      rewrite !get_set_property_ne by done. reflexivity.
    + rewrite !not_elem_of_cons in Hnot. destruct Hnot as (H1 & H2 & H3 & H4 & _).
      rewrite has_property_set_property_ne, Htw by done.
      rewrite !get_set_property_ne by done. reflexivity.
  - rewrite !not_elem_of_cons in Hnot. destruct Hnot as (H1 & H2 & _).
    rewrite !run_dispatch_disk by exact Hk. rewrite !run_mi_disk.
    rewrite !get_set_property_ne by done. reflexivity.
  - rewrite !not_elem_of_cons in Hnot. destruct Hnot as (H1 & H2 & _).
    rewrite !run_dispatch_rectangle by exact Hk. rewrite !run_mi_rectangle.
    rewrite !get_set_property_ne by done. reflexivity.
  - rewrite !not_elem_of_cons in Hnot. destruct Hnot as (H1 & H2 & _).
    rewrite !run_dispatch_cube by exact Hk. rewrite !run_mi_cube.
    rewrite !get_set_property_ne by done. reflexivity.
  - rewrite !not_elem_of_cons in Hnot. destruct Hnot as (H1 & H2 & H3 & _).
    rewrite !run_dispatch_serialized by exact Hk. rewrite !run_mi_serialized.
    rewrite !get_set_property_ne by done. cbn [props id plugin_name set_property].
    rewrite lookup_insert_ne by done. reflexivity.
Qed.

End Properties.

(** ** The properties on the term model *)

Import Example.

Lemma unsupported_kind_fails_witness :
  run (mi_shape_to_bl_shape env context (shape "cylinder" [])) w0 =
    (Return None,
     {| trace := [Log ("Mitsuba Shape type " +:+ dquote +:+ "cylinder" +:+ dquote
                         +:+ " not supported.") ERROR];
        clock := 0 |}).
Proof.
  apply (unsupported_kind_fails env context (shape "cylinder" []) w0).
  apply (bool_decide_unpack _). vm_compute. exact I.
Defined.

Lemma ply_load_failure_raises_witness :
  let s := shape "ply" [("filename", VStr "missing.ply")] in
  let w' :=
    {| trace :=
         [ResolvePath (VStr "missing.ply"); LoadPly "/scene/missing.ply" "ply_0";
          Log ("Cannot load PLY mesh file " +:+ dquote +:+ "missing.ply"
                 +:+ dquote +:+ ".") ERROR];
       clock := 0 |} in
  run (mi_ply_to_bl_shape env context s) w0 = (Return None, w') ∧
  run (mi_shape_to_bl_shape env context s) w0 = (Raise TypeError, w').
Proof.
  apply (ply_load_failure_raises env context
           (shape "ply" [("filename", VStr "missing.ply")]) (VStr "missing.ply") w0);
    reflexivity.
Defined.

Lemma file_loaders_shade_smooth_by_default_witness :
  let s := shape "ply" [("filename", VStr "tri.ply")] in
  ∃ mesh tr w',
    run (mi_shape_to_bl_shape env context s) w0 = (Return (Some (mesh, tr)), w') ∧
    mesh = _set_bl_mesh_shading env (triangle "ply_0")
             (get s "face_normals" (VBool false)) (VBool false) ∧
    mesh = shade (triangle "ply_0") false ∧
    Forall (λ p, use_smooth p = true) (polygons mesh).
Proof.
  apply (file_loaders_shade_smooth_by_default env context
           (shape "ply" [("filename", VStr "tri.ply")]) (VStr "tri.ply")
           (triangle "ply_0") w0); reflexivity.
Defined.

(** C3, as stated, fails: without [face_normals] the faces of a loaded PLY
    mesh and of a loaded OBJ mesh come out smooth, not flat. *)
Lemma file_loaders_default_flat_counterexample :
  let ply := shape "ply" [("filename", VStr "tri.ply")] in
  let obj := shape "obj" [("filename", VStr "one.obj")] in
  props ply !! "face_normals" = None ∧
  props obj !! "face_normals" = None ∧
  ∃ mesh mesh' tr tr' w' w'',
    run (mi_shape_to_bl_shape env context ply) w0 = (Return (Some (mesh, tr)), w') ∧
    run (mi_shape_to_bl_shape env context obj) w0 = (Return (Some (mesh', tr')), w'') ∧
    polygons mesh = [ {| vertices := [0; 1; 2]; use_smooth := true |} ] ∧
    polygons mesh' = [ {| vertices := [0; 1; 2; 3]; use_smooth := true |} ] ∧
    ¬ Forall (λ p, use_smooth p = false) (polygons mesh) ∧
    ¬ Forall (λ p, use_smooth p = false) (polygons mesh').
Proof.
  cbv zeta. split; [reflexivity|]. split; [reflexivity|].
  eexists _, _, _, _, _, _.
  split; [vm_compute; reflexivity|]. split; [vm_compute; reflexivity|].
  split; [reflexivity|]. split; [reflexivity|].
  split; intros H; apply Forall_cons_1 in H as [H _]; discriminate H.
Qed.

Lemma sphere_placement_modes_witness :
  let a := shape "sphere" [("to_world", VObj "T"); ("radius", VFloat 5%float)] in
  let b := shape "sphere"
             [("center", VList [VFloat 1%float; VFloat 2%float; VFloat 3%float]);
              ("radius", VFloat 2%float)] in
  let w' := {| trace := [NewMesh "sphere_0"]; clock := 0 |} in
  (∃ mesh,
     run (mi_shape_to_bl_shape env context a) w0 =
       (Return (Some (mesh, SToBlSpace (SOfTransform (VObj "T")))), w') ∧
     Forall (at_radius 1) (mesh_vertices mesh) ∧
     length (mesh_vertices mesh) = 482 ∧
     length (polygons mesh) = 512) ∧
  (∃ mesh,
     run (mi_shape_to_bl_shape env context b) w0 =
       (Return (Some
          (mesh,
           STranslation
             (SToBlSpaceV
                (SVector (VList [VFloat 1%float; VFloat 2%float; VFloat 3%float]))))),
        w') ∧
     mesh_vertices mesh = scale_point 2 <$> uvsphere_unit_vertices 32 16 ∧
     Forall (at_radius 2) (mesh_vertices mesh) ∧
     length (mesh_vertices mesh) = 482 ∧
     length (polygons mesh) = 512).
Proof.
  cbv zeta. split.
  - destruct (proj1 (sphere_placement_modes env context
                       (shape "sphere"
                          [("to_world", VObj "T"); ("radius", VFloat 5%float)])
                       w0 eq_refl) (VObj "T") eq_refl)
      as (mesh & Hrun & _ & _ & Hunit & Hverts & Hfaces & _).
    exists mesh. repeat split; assumption.
  - destruct (proj1 (proj2 (sphere_placement_modes env context
                       (shape "sphere"
                          [("center",
                            VList [VFloat 1%float; VFloat 2%float; VFloat 3%float]);
                           ("radius", VFloat 2%float)])
                       w0 eq_refl)) eq_refl 2%float eq_refl)
      as (mesh & Hrun & _ & Hgeom & Hverts & Hfaces).
    exists mesh. split; [exact Hrun|]. split; [exact Hgeom|].
    split; [|split; assumption].
    rewrite Hgeom. apply Forall_of_forallb. vm_compute. reflexivity.
Defined.

Lemma transform_conversion_by_kind_witness :
  let s := shape "serialized"
             [("filename", VStr "m.serialized"); ("shape_index", VInt 0);
              ("to_world", VObj "T")] in
  ∃ mesh w',
    run (mi_shape_to_bl_shape env context s) w0 =
      (Return (Some (mesh, SOfTransform (VObj "T"))), w') ∧
    name mesh = "serialized_0" ∧
    ∀ m, SOfTransform (VObj "T") ≠ mi_space_to_bl_space context m.
Proof.
  cbv zeta. eexists _, _.
  assert (Hrun :
    run (mi_shape_to_bl_shape env context
           (shape "serialized"
              [("filename", VStr "m.serialized"); ("shape_index", VInt 0);
               ("to_world", VObj "T")])) w0 =
      (Return (Some
         ({| name := "serialized_0";
             mesh_vertices := [(0, 0, 0); (1, 0, 0); (0, 1, 0)]%float;
             polygons := [ {| vertices := [0; 1; 2]; use_smooth := false |} ];
             uv_layer := false |},
          SOfTransform (VObj "T"))),
       {| trace :=
            [ResolvePath (VStr "m.serialized");
             MiLoadDict "serialized" "/scene/m.serialized" (VInt 0);
             NewMesh "serialized_0";
             Log ("Loaded serialized mesh " +:+ dquote +:+ "serialized_0" +:+ dquote
                    +:+ ". Took 0.75s.") INFO];
          clock := 2 |})) by (vm_compute; reflexivity).
  split; [exact Hrun|].
  destruct (transform_conversion_by_kind env context _ _ _ _ _ Hrun)
    as [Hser _].
  destruct (Hser eq_refl) as (_ & _ & filename & evs & _ & _ & Hname).
  split; [reflexivity|].
  intros m. discriminate.
Defined.

(** C5, as stated, fails twice.  On a sphere without [to_world] the
    transform is a translation built from the converted centre, and not a
    result of the conversion to Blender space.  And when Blender already
    holds a mesh under the [id] of a serialized record, the new mesh gets
    another name. *)
Lemma sphere_transform_not_converted_counterexample :
  let s := shape "sphere"
             [("center", VList [VFloat 1%float; VFloat 2%float; VFloat 3%float]);
              ("radius", VFloat 2%float)] in
  let t := shape "serialized"
             [("filename", VStr "m.serialized"); ("shape_index", VInt 0)] in
  let w1 := {| trace := [NewMesh "serialized_0"]; clock := 0 |} in
  plugin_name s ≠ "serialized" ∧
  (∃ mesh tr w',
     run (mi_shape_to_bl_shape env context s) w0 = (Return (Some (mesh, tr)), w') ∧
     tr = STranslation
            (SToBlSpaceV
               (SVector (VList [VFloat 1%float; VFloat 2%float; VFloat 3%float]))) ∧
     tr ≠ mi_space_to_bl_space context
            (mi_transform_to_bl_transform env (get s "to_world" VNone)) ∧
     ∀ m, tr ≠ mi_space_to_bl_space context m) ∧
  (∃ mesh tr w',
     run (mi_shape_to_bl_shape env context t) w1 = (Return (Some (mesh, tr)), w') ∧
     name mesh = "serialized_0.001" ∧
     name mesh ≠ id t).
Proof.
  cbv zeta. split; [discriminate|]. split.
  - eexists _, _, _. split; [vm_compute; reflexivity|].
    split; [reflexivity|]. split; [discriminate|]. intros m. discriminate.
  - eexists _, _, _. split; [vm_compute; reflexivity|].
    split; [reflexivity|]. discriminate.
Qed.

Lemma obj_loader_uses_first_mesh_witness :
  let s := shape "obj" [("filename", VStr "two.obj")] in
  let mesh :=
    _set_bl_mesh_shading env (set_name (quad "first") "obj_0")
      (get s "face_normals" (VBool false)) (VBool false) in
  let result :=
    (Return (Some (mesh, SToBlSpace SIdentity)),
     {| trace :=
          [ResolvePath (VStr "two.obj"); LoadObj "/scene/two.obj";
           Log "OBJ file containing more than one mesh. Only the first one will be loaded."
             WARN;
           RenameMesh "obj_0";
           Log ("Loaded OBJ mesh " +:+ dquote +:+ "obj_0" +:+ dquote
                  +:+ ". Took 1.00s.") INFO];
        clock := 2 |}) in
  run (mi_obj_to_bl_shape env context s) w0 = result ∧
  run (mi_shape_to_bl_shape env context s) w0 = result ∧
  name mesh = "obj_0" ∧
  mesh_vertices mesh = mesh_vertices (quad "first") ∧
  winding mesh = winding (quad "first").
Proof.
  exact (obj_loader_uses_first_mesh env context
           (shape "obj" [("filename", VStr "two.obj")]) (VStr "two.obj")
           (quad "first") [triangle "second"] w0 eq_refl eq_refl eq_refl).
Defined.

(** C6, as stated, fails when Blender already holds a mesh under the [id]
    of the record: the loaded mesh is given the [id], and Blender names it
    otherwise. *)
Lemma obj_mesh_not_named_by_id_counterexample :
  let s := shape "obj" [("filename", VStr "one.obj")] in
  let w1 := {| trace := [NewMesh "obj_0"]; clock := 0 |} in
  ∃ mesh tr w',
    run (mi_shape_to_bl_shape env context s) w1 = (Return (Some (mesh, tr)), w') ∧
    trace w' =
      [NewMesh "obj_0"; ResolvePath (VStr "one.obj"); LoadObj "/scene/one.obj";
       RenameMesh (id s);
       Log ("Loaded OBJ mesh " +:+ dquote +:+ "obj_0" +:+ dquote
              +:+ ". Took 0.75s.") INFO] ∧
    name mesh = "obj_0.001" ∧
    name mesh ≠ id s.
Proof.
  cbv zeta. eexists _, _, _. split; [vm_compute; reflexivity|].
  split; [reflexivity|]. split; [reflexivity|discriminate].
Qed.

Lemma flip_normals_round_trip_witness :
  let flipped := _set_bl_mesh_shading env (quad "q") (VBool true) (VBool true) in
  let plain := _set_bl_mesh_shading env (quad "q") (VBool true) (VBool false) in
  winding plain = [[0; 1; 2; 3]] ∧
  winding flipped = [[0; 3; 2; 1]] ∧
  flip_normals flipped = plain ∧
  _set_bl_mesh_shading env flipped (VBool true) (VBool true) = plain.
Proof.
  cbv zeta.
  destruct (flip_normals_round_trip env (quad "q") (VBool true) (VBool true)
              (VBool false) eq_refl eq_refl)
    as (_ & _ & _ & _ & _ & _ & Hflip & Htwice).
  split; [reflexivity|]. split; [reflexivity|]. split; [exact Hflip|exact Htwice].
Defined.

Lemma missing_filename_asserts_witness :
  let s := shape "serialized" [("shape_index", VInt 0)] in
  ∃ convert w',
    _shape_converters env !! plugin_name s = Some convert ∧
    run (convert context s) w0 = (Raise AssertionError, w') ∧
    run (mi_shape_to_bl_shape env context s) w0 = (Raise AssertionError, w') ∧
    trace w' = trace w0.
Proof.
  apply (missing_filename_asserts env context
           (shape "serialized" [("shape_index", VInt 0)]) w0).
  - apply (bool_decide_unpack _). vm_compute. exact I.
  - reflexivity.
Defined.

Lemma cube_spans_unit_box_witness :
  let s := shape "cube" [] in
  ∃ mesh tr,
    run (mi_shape_to_bl_shape env context s) w0 =
      (Return (Some (mesh, tr)), {| trace := [NewMesh "cube_0"]; clock := 0 |}) ∧
    mesh_vertices mesh =
      [ (-1, -1, -1); (-1, -1, 1); (-1, 1, -1); (-1, 1, 1);
        (1, -1, -1); (1, -1, 1); (1, 1, -1); (1, 1, 1) ]%float ∧
    winding mesh = cube_faces ∧
    length (polygons mesh) = 6 ∧
    Forall (λ p, length (vertices p) = 4 ∧ use_smooth p = false) (polygons mesh) ∧
    triangle_count mesh = 12 ∧
    Forall (λ p, Forall (λ e, edge_length2 mesh e = Some 4%float)
                   (loop_edges (vertices p))) (polygons mesh).
Proof.
  exact (cube_spans_unit_box env context (shape "cube" []) w0 eq_refl).
Defined.

Lemma file_loaders_ignore_flip_normals_witness :
  let s := shape "obj" [("filename", VStr "one.obj")] in
  run (mi_shape_to_bl_shape env context (set_property s "flip_normals" (VBool true))) w0 =
    run (mi_shape_to_bl_shape env context (del_property s "flip_normals")) w0 ∧
  ∃ tr w',
    run (mi_shape_to_bl_shape env context
           (set_property s "flip_normals" (VBool true))) w0 =
      (Return (Some
         (_set_bl_mesh_shading env (set_name (quad "only") "obj_0")
            (VBool false) (VBool false), tr)), w') ∧
    winding (_set_bl_mesh_shading env (set_name (quad "only") "obj_0")
               (VBool false) (VBool false)) = [[0; 1; 2; 3]].
Proof.
  cbv zeta.
  pose proof (file_loaders_ignore_flip_normals env context
                (set_property (shape "obj" [("filename", VStr "one.obj")])
                   "flip_normals" (VBool true))
                (VBool true) w0 (or_intror eq_refl)) as [_ Hkeep].
  split.
  - exact (proj1 (file_loaders_ignore_flip_normals env context
                    (shape "obj" [("filename", VStr "one.obj")]) (VBool true) w0
                    (or_intror eq_refl))).
  - destruct (Hkeep (VStr "one.obj") (set_name (quad "only") "obj_0")
                eq_refl eq_refl) as (tr & w' & Hrun & Hw).
    exists tr, w'. split; [exact Hrun|exact Hw].
Defined.

Lemma obj_loader_empty_file_raises_witness :
  run (mi_shape_to_bl_shape env context
         (shape "obj" [("filename", VStr "none.obj")])) w0 =
    (Raise IndexError,
     {| trace := [ResolvePath (VStr "none.obj"); LoadObj "/scene/none.obj"];
        clock := 1 |}).
Proof.
  exact (obj_loader_empty_file_raises env context
           (shape "obj" [("filename", VStr "none.obj")]) (VStr "none.obj") w0
           eq_refl eq_refl eq_refl).
Defined.

Lemma serialized_malformed_arrays_raise_witness :
  run (mi_shape_to_bl_shape Malformed.env context
         (shape "serialized" [("filename", VStr "m.serialized")])) w0 =
    (Raise ValueError,
     {| trace :=
          [ResolvePath (VStr "m.serialized");
           MiLoadDict "serialized" "/scene/m.serialized" VNone;
           NewMesh "serialized_0"];
        clock := 1 |}).
Proof.
  apply (serialized_malformed_arrays_raise Malformed.env context
           (shape "serialized" [("filename", VStr "m.serialized")])
           (VStr "m.serialized") w0 eq_refl eq_refl).
  left. cbn. lia.
Defined.

Lemma serialized_mesh_from_arrays_witness :
  ∃ mesh tr w',
    run (mi_shape_to_bl_shape env context
           (shape "serialized" [("filename", VStr "m.serialized")])) w0 =
      (Return (Some (mesh, tr)), w') ∧
    length (mesh_vertices mesh) = 3 ∧
    flat3 (mesh_vertices mesh) = [0; 0; 0; 1; 0; 0; 0; 1; 0]%float ∧
    length (polygons mesh) = 1 ∧
    concat (winding mesh) = [0; 1; 2] ∧
    Forall (λ p, length (vertices p) = 3 ∧ use_smooth p = false) (polygons mesh).
Proof.
  exact (serialized_mesh_from_arrays env context
           (shape "serialized" [("filename", VStr "m.serialized")])
           (VStr "m.serialized") w0 eq_refl eq_refl eq_refl eq_refl).
Defined.

Lemma primitives_shading_by_kind_witness :
  let mesh :=
    _set_bl_mesh_shading env
      (to_mesh (create_circle env bmesh_new true true 32 1%float true)
         (new_mesh "disk_0"))
      (VBool true) (VBool false) in
  run (mi_shape_to_bl_shape env context (shape "disk" [])) w0 =
    (Return (Some (mesh, SToBlSpace SIdentity)),
     {| trace := [NewMesh "disk_0"]; clock := 0 |}) ∧
  Forall (λ p, use_smooth p = false) (polygons mesh).
Proof.
  cbv zeta.
  assert (Hrun :
    run (mi_shape_to_bl_shape env context (shape "disk" [])) w0 =
      (Return (Some
         (_set_bl_mesh_shading env
            (to_mesh (create_circle env bmesh_new true true 32 1%float true)
               (new_mesh "disk_0"))
            (VBool true) (VBool false), SToBlSpace SIdentity)),
       {| trace := [NewMesh "disk_0"]; clock := 0 |})) by reflexivity.
  split; [exact Hrun|].
  refine (proj2 (primitives_shading_by_kind env context (shape "disk" []) w0 _ _ _
                   _ Hrun)).
  apply (bool_decide_unpack _). vm_compute. exact I.
Defined.

Lemma primitives_flip_on_request_witness :
  ∃ mesh tr w',
    run (mi_shape_to_bl_shape env context
           (del_property (shape "cube" []) "flip_normals")) w0 =
      (Return (Some (mesh, tr)), w') ∧
    run (mi_shape_to_bl_shape env context
           (set_property (shape "cube" []) "flip_normals" (VBool true))) w0 =
      (Return (Some (flip_normals mesh, tr)), w').
Proof.
  apply (primitives_flip_on_request env context (shape "cube" []) (VBool true) w0).
  apply (bool_decide_unpack _). vm_compute. exact I.
Defined.

Lemma ply_loader_keeps_loaded_mesh_witness :
  ∃ mesh tr,
    run (mi_shape_to_bl_shape env context
           (shape "ply" [("filename", VStr "tri.ply")])) w0 =
      (Return (Some (mesh, tr)),
       {| trace := [ResolvePath (VStr "tri.ply"); LoadPly "/scene/tri.ply" "ply_0"];
          clock := 0 |}) ∧
    name mesh = "ply_0" ∧
    mesh_vertices mesh = mesh_vertices (triangle "ply_0") ∧
    winding mesh = [[0; 1; 2]] ∧
    uv_layer mesh = false.
Proof.
  exact (ply_loader_keeps_loaded_mesh env context
           (shape "ply" [("filename", VStr "tri.ply")]) (VStr "tri.ply")
           (triangle "ply_0") w0 eq_refl eq_refl eq_refl).
Defined.

Lemma conversion_reads_only_witness :
  let s := shape "sphere" [("to_world", VObj "T")] in
  run (mi_shape_to_bl_shape env context (set_property s "center" (VStr "nowhere"))) w0 =
    run (mi_shape_to_bl_shape env context s) w0.
Proof.
  apply (conversion_reads_only env context
           (shape "sphere" [("to_world", VObj "T")]) "center" (VStr "nowhere") w0).
  apply (bool_decide_unpack _). vm_compute. exact I.
Defined.
